(** * Expo CLI: the multi-platform Metro resolver

    A shallow embedding of [withMetroMultiPlatform.ts] (the resolver chain that
    [withExtendedResolver] installs, the polyfill list of [withWebPolyfills]
    and [getNodejsExtensions]) together with the properties its specification
    states about it.

    Conventions of the embedding:
    - a JavaScript string is a [string]: a sequence of code units below 256,
      so the line terminators a regular expression's [.] refuses are LF and CR;
    - [string | null] is [option string]; JavaScript truthiness of a string is
      [truthy]; an optional boolean option is [option bool];
    - a call that may throw yields an [Outcome]; a stage of the chain is a
      computation in the monad [M], which threads the mutable [World] (the
      bundler's virtual modules, the log, the closure variables of
      [withExtendedResolver]) and keeps the writes made before a throw;
    - the tables of the module are object literals, so [in] and a property
      read on them go through [Object.prototype]; what the built-in objects
      hold is the host's to say, and a name with a character other than a
      letter, a digit, [_] or [$] is the name of no property of theirs;
    - [debug(...)] output is not part of the model. *)

From Stdlib Require Import ZArith Lia List Bool Ascii String.
From stdpp Require Import gmap strings list fin_maps.

(** ** JavaScript string operations used by the resolver *)

Module Js.

(** The code unit [\0] that starts every virtual module identifier. *)
Definition NUL : string := String Ascii.zero EmptyString.

(** A double quote and a backslash, as one-character strings. *)
Definition dq : string := String (ascii_of_nat 34) EmptyString.
Definition backslash : ascii := ascii_of_nat 92.

(** [Boolean(s)] for a string. *)
Definition truthy (s : string) : bool := negb (String.eqb s "").

(** [s.startsWith(p)]. *)
Definition startsWith (s p : string) : bool := String.prefix p s.

(** [s.endsWith(suf)]: some suffix of [s] is [suf]. *)
Fixpoint endsWith (s suf : string) : bool :=
  String.eqb s suf ||
  match s with
  | EmptyString => false
  | String _ s' => endsWith s' suf
  end.

(** [s.includes(sub)]. *)
Fixpoint includes (s sub : string) : bool :=
  String.prefix sub s ||
  match s with
  | EmptyString => false
  | String _ s' => includes s' sub
  end.

Fixpoint drop (n : nat) (s : string) : string :=
  match n, s with
  | O, _ => s
  | S _, EmptyString => EmptyString
  | S n', String _ s' => drop n' s'
  end.

Fixpoint mapChars (f : ascii -> ascii) (s : string) : string :=
  match s with
  | EmptyString => EmptyString
  | String c s' => String (f c) (mapChars f s')
  end.

(** What [.] refuses in a regular expression without the [s] flag. *)
Definition isLineTerminator (c : ascii) : bool :=
  Ascii.eqb c (ascii_of_nat 10) || Ascii.eqb c (ascii_of_nat 13).

(** The longest prefix [.*] can match. *)
Fixpoint takeLine (s : string) : string :=
  match s with
  | EmptyString => EmptyString
  | String c s' => if isLineTerminator c then EmptyString else String c (takeLine s')
  end.

(** The first occurrence of [pat] in [s], as the text before and after it. *)
Fixpoint findFirst (pat s : string) : option (string * string) :=
  if String.prefix pat s then Some (EmptyString, drop (String.length pat) s)
  else match s with
       | EmptyString => None
       | String c s' =>
           match findFirst pat s' with
           | Some (b, a) => Some (String c b, a)
           | None => None
           end
       end.

(** The replacement text of [String.prototype.replace] for a string pattern
    (no capture groups): [$$], [$&], [$`] and [$'] are special, every other
    [$] stands for itself. *)
Fixpoint getSubstitution (matched before after tpl : string) : string :=
  match tpl with
  | EmptyString => EmptyString
  | String c t =>
      if Ascii.eqb c "$" then
        match t with
        | EmptyString => String c EmptyString
        | String d rest =>
            if Ascii.eqb d "$" then String "$" (getSubstitution matched before after rest)
            else if Ascii.eqb d "&" then matched +:+ getSubstitution matched before after rest
            else if Ascii.eqb d "`" then before +:+ getSubstitution matched before after rest
            else if Ascii.eqb d "'" then after +:+ getSubstitution matched before after rest
            else String c (getSubstitution matched before after t)
        end
      else String c (getSubstitution matched before after t)
  end.

(** [s.replace(pat, repl)] with a string pattern: the first occurrence only. *)
Definition replace (s pat repl : string) : string :=
  match findFirst pat s with
  | None => s
  | Some (b, a) => b +:+ getSubstitution pat b a repl +:+ a
  end.

(** The value of a decimal digit. *)
Definition digitValue (c : ascii) : option nat :=
  let n := nat_of_ascii c in
  if (48 <=? n)%nat && (n <=? 57)%nat then Some (n - 48)%nat else None.

(** The scanner state of [tpl.replace(/\$(\d+)/g, ...)]: outside a
    reference, after a [$], or inside the digits of a reference. *)
Inductive Pending := Idle | Dollar | Digits (n : nat).

Section Backrefs.
(** The match array: index 0 is the whole match, then the groups, each
    [undefined] when it did not take part. *)
Variable m : list (option string).

(** [(_, index) => match[parseInt(index, 10)] ?? ''] *)
Definition backref (n : nat) : string :=
  match nth_error m n with
  | Some (Some g) => g
  | _ => EmptyString
  end.

Definition flush (p : Pending) : string :=
  match p with
  | Idle => EmptyString
  | Dollar => "$"
  | Digits n => backref n
  end.

Fixpoint expand (p : Pending) (tpl : string) : string :=
  match tpl with
  | EmptyString => flush p
  | String c rest =>
      match p, digitValue c with
      | Dollar, Some d => expand (Digits d) rest
      | Digits n, Some d => expand (Digits (10 * n + d)) rest
      | _, _ =>
          flush p +:+
          (if Ascii.eqb c "$" then expand Dollar rest
           else String c (expand Idle rest))
      end
  end.
End Backrefs.

(** [alias.replace(/\$(\d+)/g, (_, index) => match[parseInt(index, 10)] ?? '')] *)
Definition expandBackrefs (m : list (option string)) (tpl : string) : string :=
  expand m Idle tpl.

(** The suffix after the last [needle] on the first line of [s], with the
    following lines kept: what is left of [s] when a match of
    [/.*needle/] that starts at the head of [s] is removed. *)
Fixpoint afterLastInLine (needle s : string) : option string :=
  match s with
  | EmptyString => None
  | String c s' =>
      if isLineTerminator c then None
      else match afterLastInLine needle s' with
           | Some r => Some r
           | None =>
               if String.prefix needle s then Some (drop (String.length needle) s)
               else None
           end
  end.

(** [s.replace(/.*needle/, '')] for a [needle] without line terminators:
    the leftmost match starts at the head of the first line that contains
    [needle] and, [.*] being greedy, ends with the last [needle] there. *)
Fixpoint dropThrough (needle : string) (lineStart : bool) (s : string) : string :=
  match s with
  | EmptyString => EmptyString
  | String c s' =>
      let continue := String c (dropThrough needle (isLineTerminator c) s') in
      if lineStart then
        match afterLastInLine needle s with
        | Some r => r
        | None => continue
        end
      else continue
  end.

(** A pattern of character classes, one per code unit, for the regular
    expressions that mix literals with [[\\/]]-style classes. *)
Definition Pattern := list (ascii -> bool).

Definition lit (s : string) : Pattern := List.map Ascii.eqb (list_ascii_of_string s).

(** [[\\/]] *)
Definition sep : ascii -> bool := fun c => Ascii.eqb c backslash || Ascii.eqb c "/".

(** [[-\\/]] *)
Definition dashOrSep : ascii -> bool := fun c => Ascii.eqb c "-" || sep c.

Fixpoint matchesAt (pat : Pattern) (s : string) : bool :=
  match pat, s with
  | [], _ => true
  | p :: pat', String c s' => p c && matchesAt pat' s'
  | _ :: _, EmptyString => false
  end.

(** [pattern.test(s)] for an unanchored pattern. *)
Fixpoint includesPat (pat : Pattern) (s : string) : bool :=
  matchesAt pat s ||
  match s with
  | EmptyString => false
  | String _ s' => includesPat pat s'
  end.

End Js.

(** ** [getNodejsExtensions] *)

(** [/mjs$/.test(ext)] *)
Definition isMjs (ext : string) : bool := Js.endsWith ext "mjs".

(** [/jsx?$/.test(ext)] *)
Definition isJsOrJsx (ext : string) : bool := Js.endsWith ext "js" || Js.endsWith ext "jsx".

(** [exts.reduce((index, ext, i) => /jsx?$/.test(ext) ? i : index, -1)],
    started at position [i] with the accumulator [index]. *)
Fixpoint lastJsIndex (i index : Z) (exts : list string) : Z :=
  match exts with
  | [] => index
  | ext :: rest => lastJsIndex (i + 1) (if isJsOrJsx ext then i else index) rest
  end.

(** [arr.splice(start, 0, ...items)]: a negative [start] counts from the end,
    and the position is clamped to the array. *)
Definition spliceInsert {A} (start : Z) (items arr : list A) : list A :=
  let len := Z.of_nat (length arr) in
  let pos := if (start <? 0)%Z then Z.max (len + start) 0 else Z.min start len in
  take (Z.to_nat pos) arr ++ items ++ List.skipn (Z.to_nat pos) arr.

Definition getNodejsExtensions (srcExts : list string) : list string :=
  let mjsExts := List.filter isMjs srcExts in
  let nodejsSourceExtensions := List.filter (fun ext => negb (isMjs ext)) srcExts in
  let jsIndex := lastJsIndex 0 (-1) nodejsSourceExtensions in
  spliceInsert (jsIndex + 1) mjsExts nodejsSourceExtensions.

(** ** Resolutions, resolution contexts and the host *)

(** metro-resolver's [Resolution]. [fields] are the further own properties a
    [sourceFile] object may carry; the spread [{...result, filePath}] copies
    them. *)
Inductive Resolution :=
  | SourceFile (filePath : string) (fields : list (string * string))
  | AssetFiles (filePaths : list string)
  | Empty.

(** [result.type] *)
Definition resolutionType (r : Resolution) : string :=
  match r with
  | SourceFile _ _ => "sourceFile"
  | AssetFiles _ => "assetFiles"
  | Empty => "empty"
  end.

(** [context.customResolverOptions]: the [environment] tag, and whether
    [exporting] is truthy. *)
Record CustomResolverOptions := {
  environment : option string;
  exporting : bool;
}.

(** The fields of metro's [ResolutionContext] the chain reads. [dev] is
    whether [context.dev] is truthy, [redirectModulePath] answers [None] for
    [false], and [resolveRequest] names the upstream custom resolver. *)
Record ResolutionContext := {
  originModulePath : string;
  dev : bool;
  customResolverOptions : CustomResolverOptions;
  redirectModulePath : string -> option string;
  resolveRequest : option nat;
}.

(** The result of a call that may throw. *)
Inductive Outcome (E A : Type) :=
  | Return (a : A)
  | Throw (e : E).
Arguments Return {E A} a.
Arguments Throw {E A} e.

(** [tsconfig.json] path mappings as [loadTsConfigPathsAsync] yields them, and
    as [withExtendedResolver] binds them to [resolveWithTsConfigPaths]. *)
Record TsConfigPaths := {
  paths : option (list (string * list string));
  baseUrl : option string;
}.

Record BoundTsConfig := {
  boundPaths : list (string * list string);
  boundBaseUrl : string;
  hasBaseUrl : bool;
}.

(** What a resolver is handed as the module name: a string, or, where the
    alias stage reads its table through the prototype chain, a value that is
    no string, the function or object [aliases[holder][property]]. *)
Inductive Specifier :=
  | Named (moduleName : string)
  | Inherited (holder property : string).

Coercion Named : string >-> Specifier.

(** The value of a property of a built-in object, as far as the alias stage
    tells values apart: a string, or a value that is no string and is truthy
    or not. *)
Inductive PropertyValue :=
  | StringValue (s : string)
  | OtherValue (truthy : bool).

(** What the module imports from the rest of the CLI, from metro and from
    Node.js. The resolver proper, the tables of [./externals], the built-in
    objects and the file system are given; the chain is defined over them. *)
Class Host := {
  Error : Type;
  (** [./metroErrors] *)
  isFailedToResolveNameError : Error -> bool;
  isFailedToResolvePathError : Error -> bool;
  (** [new CommandError(message)] *)
  CommandError : string -> Error;
  (** [metroResolver.resolve] and the resolver [createFastResolver] builds *)
  metroResolve : ResolutionContext -> Specifier -> option string -> Outcome Error Resolution;
  fastResolve : ResolutionContext -> Specifier -> option string -> Outcome Error Resolution;
  (** [({})[member][property]] for a member of [Object.prototype]: the read
      of a property of the built-in function, or of [Object.prototype]
      itself under [__proto__], that an object literal inherits *)
  builtinProperty : string -> string -> Outcome Error PropertyValue;
  (** [./externals] *)
  isNodeExternal : string -> option string;
  shouldCreateVirtualShim : string -> option string;
  shouldCreateVirtualCanary : string -> option string;
  (** [../middleware/metroOptions] *)
  isServerEnvironment : option string -> bool;
  (** [resolveWithTsConfigPaths(config, {originModulePath, moduleName}, resolve)] *)
  resolveWithTsConfigPaths :
    BoundTsConfig -> string -> string ->
    (string -> Outcome Error (option Resolution)) -> Outcome Error (option Resolution);
  (** [fs], [path], [resolve-from] and [require.resolve] *)
  readFileSync : string -> string;
  realpathSync : string -> string;
  pathIsAbsolute : string -> bool;
  pathResolve : string -> string;
  pathDirname : string -> string;
  resolveFrom : string -> string -> string;
  resolveFromSilent : string -> string -> option string;
  requireResolve : string -> string;
  (** [loadTsConfigPathsAsync(projectRoot)], awaited *)
  loadTsConfigPathsAsync : string -> option TsConfigPaths;
}.

(** The part of metro's [ConfigT] the module reads. *)
Record Config := {
  projectRoot : string;
  transformer_assetRegistryPath : option string;
  serializer_getPolyfills : option (option string -> list string);
}.

(** The options of [withExtendedResolver]; an absent option is [None]. *)
Record ExtendedResolverOptions := {
  tsconfig : option TsConfigPaths;
  isTsconfigPathsEnabled : option bool;
  isFastResolverEnabled : option bool;
  isExporting : option bool;
  isReactCanaryEnabled : option bool;
  isReactNativeStrictVersionEnabled : option bool;
}.

(** Truthiness of an optional boolean, and a parameter default. *)
Definition enabledOption (o : option bool) : bool := default false o.

(** A universal alias: the match array of its pattern on a specifier, and its
    replacement template. *)
Definition UniversalAlias : Type := (string -> option (list (option string))) * string.

(** ** The mutable world *)

(** The bundler's virtual modules, the [Log.warn] lines in the order they were
    written, and the variables the closures of [withExtendedResolver] share. *)
Record World := {
  virtualModules : gmap string string;
  warnings : list string;
  _assetRegistryPath : option string;
  _universalAliases : option (list UniversalAlias);
  tsConfigResolve : option BoundTsConfig;
  warnedMultipleReactNativeVersions : bool;
}.

(** Modelled from the spec: the virtual module registry of
    [./metroVirtualModules], which is not part of the sources at hand.
    [setVirtualModule(id, contents)] registers or overwrites. *)
Definition setVirtualModule (id contents : string) (w : World) : World :=
  {| virtualModules := <[id := contents]> (virtualModules w);
     warnings := warnings w;
     _assetRegistryPath := _assetRegistryPath w;
     _universalAliases := _universalAliases w;
     tsConfigResolve := tsConfigResolve w;
     warnedMultipleReactNativeVersions := warnedMultipleReactNativeVersions w |}.

(** Modelled from the spec: [hasVirtualModule(id)] checks existence. *)
Definition hasVirtualModule (id : string) (w : World) : bool :=
  bool_decide (is_Some (virtualModules w !! id)).

(** [Log.warn(message)] *)
Definition logWarn (message : string) (w : World) : World :=
  {| virtualModules := virtualModules w;
     warnings := warnings w ++ [message];
     _assetRegistryPath := _assetRegistryPath w;
     _universalAliases := _universalAliases w;
     tsConfigResolve := tsConfigResolve w;
     warnedMultipleReactNativeVersions := warnedMultipleReactNativeVersions w |}.

Definition set_assetRegistryPath (p : string) (w : World) : World :=
  {| virtualModules := virtualModules w;
     warnings := warnings w;
     _assetRegistryPath := Some p;
     _universalAliases := _universalAliases w;
     tsConfigResolve := tsConfigResolve w;
     warnedMultipleReactNativeVersions := warnedMultipleReactNativeVersions w |}.

Definition set_universalAliases (l : list UniversalAlias) (w : World) : World :=
  {| virtualModules := virtualModules w;
     warnings := warnings w;
     _assetRegistryPath := _assetRegistryPath w;
     _universalAliases := Some l;
     tsConfigResolve := tsConfigResolve w;
     warnedMultipleReactNativeVersions := warnedMultipleReactNativeVersions w |}.

Definition set_warnedMultipleReactNativeVersions (w : World) : World :=
  {| virtualModules := virtualModules w;
     warnings := warnings w;
     _assetRegistryPath := _assetRegistryPath w;
     _universalAliases := _universalAliases w;
     tsConfigResolve := tsConfigResolve w;
     warnedMultipleReactNativeVersions := true |}.

(** ** The monad of a stage: state, with exceptions that keep the state *)

Definition M (E A : Type) : Type := World -> Outcome E A * World.

Definition ret {E A} (a : A) : M E A := fun w => (Return a, w).

Definition bind {E A B} (c : M E A) (k : A -> M E B) : M E B :=
  fun w =>
    match c w with
    | (Return a, w') => k a w'
    | (Throw e, w') => (Throw e, w')
    end.

(** A call into the host that may throw and does not touch the world. *)
Definition call {E A} (o : Outcome E A) : M E A := fun w => (o, w).

(** A write to the world. *)
Definition modify {E} (f : World -> World) : M E unit := fun w => (Return tt, f w).

(** A read of the world. *)
Definition gets {E A} (f : World -> A) : M E A := fun w => (Return (f w), w).

Declare Scope stage_scope.
Delimit Scope stage_scope with stage.
Notation "x <- c ;; k" := (bind c (fun x => k))
  (at level 100, c at next level, right associativity) : stage_scope.
Notation "c ;;; k" := (bind c (fun _ => k))
  (at level 100, right associativity) : stage_scope.

(** A custom resolver of the chain: [null] is [None]. *)
Definition Stage (E : Type) : Type :=
  ResolutionContext -> string -> option string -> M E (option Resolution).

(** ** [withExtendedResolver] *)

Section WithExtendedResolver.
Context `{H : Host}.
Variable config : Config.
Variable options : ExtendedResolverOptions.

Local Open Scope stage_scope.

(** The [Log.warn] lines [withExtendedResolver] writes when it is called. *)
Definition experimentalWarnings : list string :=
  (if enabledOption (isFastResolverEnabled options)
   then ["Experimental bundling features are enabled."] else []) ++
  (if enabledOption (isReactCanaryEnabled options)
   then ["Experimental React Canary version is enabled."] else []) ++
  (if enabledOption (isReactNativeStrictVersionEnabled options)
   then ["Experimental React Native strict version is enabled."] else []).

(** The path [getAssetRegistryPath()] computes when nothing is cached. *)
Definition resolveAssetRegistryPath : string :=
  match transformer_assetRegistryPath config with
  | Some a =>
      if Js.truthy a && pathIsAbsolute a then realpathSync a
      else realpathSync (pathResolve (resolveFrom (projectRoot config) a))
  | None =>
      realpathSync
        (pathResolve
           (resolveFrom (projectRoot config) "@react-native/assets-registry/registry.js"))
  end.

(** [getAssetRegistryPath()], cached in [_assetRegistryPath] once it is truthy. *)
Definition getAssetRegistryPath : M Error string :=
  fun w =>
    let compute := (Return resolveAssetRegistryPath,
                    set_assetRegistryPath resolveAssetRegistryPath w) in
    match _assetRegistryPath w with
    | Some p => if Js.truthy p then (Return p, w) else compute
    | None => compute
    end.

(** [const resolver = isFastResolverEnabled ? createFastResolver(...) : defaultResolver] *)
Definition resolver : ResolutionContext -> Specifier -> option string -> Outcome Error Resolution :=
  if enabledOption (isFastResolverEnabled options) then fastResolve else metroResolve.

(** The exact aliases, per platform. *)
Definition aliases : list (string * list (string * string)) :=
  [("web",
    [("react-native", "react-native-web");
     ("react-native/index", "react-native-web");
     ("react-native/Libraries/Image/resolveAssetSource",
      "expo-asset/build/resolveAssetSource")])].

(** The match array of the pattern of the vector-icons alias on a specifier:
    [^react-native-vector-icons], then an optional group of a slash and the
    rest of the line. *)
Definition matchVectorIcons (moduleName : string) : option (list (option string)) :=
  if Js.startsWith moduleName "react-native-vector-icons" then
    match Js.drop (String.length "react-native-vector-icons") moduleName with
    | String c rest =>
        if Ascii.eqb c "/" then
          let group := String c (Js.takeLine rest) in
          Some [Some ("react-native-vector-icons" +:+ group); Some group]
        else Some [Some "react-native-vector-icons"; None]
    | EmptyString => Some [Some "react-native-vector-icons"; None]
    end
  else None.

(** [getUniversalAliases()], computed once and cached in [_universalAliases]. *)
Definition getUniversalAliases : M Error (list UniversalAlias) :=
  fun w =>
    match _universalAliases w with
    | Some l => (Return l, w)
    | None =>
        let l :=
          match resolveFromSilent (projectRoot config) "@expo/vector-icons" with
          | Some p =>
              if Js.truthy p then [(matchVectorIcons, "@expo/vector-icons$1")] else []
          | None => []
          end in
        (Return l, set_universalAliases l w)
    end.

(** The initial value of [tsConfigResolve]. *)
Definition initialTsConfigResolve : option BoundTsConfig :=
  if enabledOption (isTsconfigPathsEnabled options) then
    match tsconfig options with
    | Some t =>
        if bool_decide (is_Some (paths t)) || bool_decide (is_Some (baseUrl t)) then
          Some {| boundPaths := default [] (paths t);
                  boundBaseUrl := default (projectRoot config) (baseUrl t);
                  hasBaseUrl := match baseUrl t with
                                | Some b => Js.truthy b
                                | None => false
                                end |}
        else None
    | None => None
    end
  else None.

(** The world right after [withExtendedResolver] returned, over the virtual
    modules [vm] the bundler holds and the lines [log] written so far. *)
Definition initialWorld (vm : gmap string string) (log : list string) : World :=
  {| virtualModules := vm;
     warnings := log ++ experimentalWarnings;
     _assetRegistryPath := None;
     _universalAliases := None;
     tsConfigResolve := initialTsConfigResolve;
     warnedMultipleReactNativeVersions := false |}.

(** [{ resolveRequest, ...context }]: the context without its upstream resolver. *)
Definition withoutResolveRequest (context : ResolutionContext) : ResolutionContext :=
  {| originModulePath := originModulePath context;
     dev := dev context;
     customResolverOptions := customResolverOptions context;
     redirectModulePath := redirectModulePath context;
     resolveRequest := None |}.

Definition getStrictResolver (context : ResolutionContext) (platform : option string)
    (moduleName : Specifier) : Outcome Error Resolution :=
  resolver (withoutResolveRequest context) moduleName platform.

Definition getOptionalResolver (context : ResolutionContext) (platform : option string)
    (moduleName : string) : Outcome Error (option Resolution) :=
  match getStrictResolver context platform moduleName with
  | Return r => Return (Some r)
  | Throw error =>
      let isResolutionError :=
        isFailedToResolveNameError error || isFailedToResolvePathError error in
      if negb isResolutionError then Throw error else Return None
  end.

(** [.] as often as the quantifier asks, up to the end of the input. *)
Definition oneLine (s : string) : bool := String.eqb (Js.takeLine s) s.

(** [prefix.+$] *)
Definition properlyUnder (prefix moduleName : string) : bool :=
  Js.startsWith moduleName prefix &&
  let rest := Js.drop (String.length prefix) moduleName in
  Js.truthy rest && oneLine rest.

(** The test of the allow-list of the declared package externals, anchored
    at both ends: the bare names, [source-map-support] with an optional
    slash and rest, and the scopes and packages that ask for a slash and a
    rest that is not empty. *)
Definition matchesDeclaredExternal (moduleName : string) : bool :=
  existsb (String.eqb moduleName)
    ["source-map-support"; "react"; "react-native-helmet-async"; "react-dom"; "debug";
     "acorn-loose"; "acorn"; "hyphenate-style-name"; "color"; "color-string";
     "color-convert"; "color-name"; "fontfaceobserver"; "fast-deep-equal";
     "query-string"; "escape-string-regexp"; "invariant"; "postcss-value-parser";
     "memoize-one"; "nullthrows"; "strict-uri-encode"; "decode-uri-component";
     "split-on-first"; "filter-obj"; "warn-once"; "simple-swizzle"; "is-arrayish"]
  || (Js.startsWith moduleName "source-map-support/"
      && oneLine (Js.drop (String.length "source-map-support/") moduleName))
  || existsb (fun prefix => properlyUnder prefix moduleName)
       ["@radix-ui/"; "@babel/runtime/"; "react-dom/"; "css-in-js-utils/lib/";
        "inline-style-prefixer/"].

(** An entry of [externals]. *)
Record External := {
  matches : ResolutionContext -> string -> option string -> bool;
  replaceWith : string;
}.

Definition externals : list External :=
  [{| matches := fun context moduleName _ =>
        if exporting (customResolverOptions context)
           || negb (isServerEnvironment (environment (customResolverOptions context)))
        then false
        else matchesDeclaredExternal moduleName;
      replaceWith := "node" |}].

(** [`${platform}`] *)
Definition showPlatform (platform : option string) : string := default "null" platform.

(** *** The custom resolvers, in the order they are handed to
    [withMetroResolvers] *)

(** [/[\\/]node_modules[\\/]react-native[\\/]/] *)
Definition inReactNative : Js.Pattern :=
  ([Js.sep] ++ Js.lit "node_modules" ++ [Js.sep] ++ Js.lit "react-native" ++ [Js.sep])%list.

(** The first alternative of [/([\\/]ReactFabric|ReactNativeRenderer)-prod/] *)
Definition reactFabricProd : Js.Pattern := ([Js.sep] ++ Js.lit "ReactFabric-prod")%list.

(** The alternatives of [/[\\/]node_modules[\\/](react[-\\/]|scheduler[\\/])/] *)
Definition inReactPackage : Js.Pattern :=
  ([Js.sep] ++ Js.lit "node_modules" ++ [Js.sep] ++ Js.lit "react" ++ [Js.dashOrSep])%list.
Definition inScheduler : Js.Pattern :=
  ([Js.sep] ++ Js.lit "node_modules" ++ [Js.sep] ++ Js.lit "scheduler" ++ [Js.sep])%list.

(** [/node_modules[\\/]react-native-web[\\/]/] *)
Definition inReactNativeWeb : Js.Pattern :=
  (Js.lit "node_modules" ++ [Js.sep] ++ Js.lit "react-native-web" ++ [Js.sep])%list.

(** Mock out production react imports in development. *)
Definition mockProductionReact : Stage Error :=
  fun context moduleName platform =>
    if negb (dev context) then ret None
    else if
      (negb (bool_decide (platform = Some "web"))
       && Js.includesPat inReactNative (originModulePath context)
       && (Js.includesPat reactFabricProd moduleName
           || Js.includes moduleName "ReactNativeRenderer-prod"))
      || ((Js.endsWith moduleName ".production.js"
           || Js.endsWith moduleName ".production.min.js")
          && (Js.includesPat inReactPackage (originModulePath context)
              || Js.includesPat inScheduler (originModulePath context)))
    then ret (Some Empty)
    else ret None.

(** tsconfig paths. *)
Definition tsconfigPaths : Stage Error :=
  fun context moduleName platform =>
    bound <- gets tsConfigResolve;;
    match bound with
    | Some b =>
        call (resolveWithTsConfigPaths b (originModulePath context) moduleName
                (getOptionalResolver context platform))
    | None => ret None
    end.

(** Node.js externals support. *)
Definition nodeExternals : Stage Error :=
  fun context moduleName platform =>
    let isServer :=
      bool_decide (environment (customResolverOptions context) = Some "node")
      || bool_decide (environment (customResolverOptions context) = Some "react-server") in
    match isNodeExternal moduleName with
    | None => ret None
    | Some moduleId =>
        if negb (Js.truthy moduleId) then ret None
        else if negb isServer then
          result <- call (getOptionalResolver context platform moduleName);;
          match result with
          | None =>
              if negb (bool_decide (platform = Some "web")) then ret None
              else ret (Some Empty)
          | Some r => ret (Some r)
          end
        else
          let contents := "module.exports=$$require_external('node:" +:+ moduleId +:+ "');" in
          let virtualModuleId := Js.NUL +:+ "node:" +:+ moduleId in
          modify (setVirtualModule virtualModuleId contents);;;
          ret (Some (SourceFile virtualModuleId []))
    end.

(** The loop of the custom externals over the entries of the table. *)
Fixpoint firstExternal (table : list External) : Stage Error :=
  fun context moduleName platform =>
    match table with
    | [] => ret None
    | external :: rest =>
        if matches external context moduleName platform then
          if String.eqb (replaceWith external) "empty" then ret (Some Empty)
          else if String.eqb (replaceWith external) "node" then
            let contents := "module.exports=$$require_external('" +:+ moduleName +:+ "')" in
            let virtualModuleId := Js.NUL +:+ "node:" +:+ moduleName in
            modify (setVirtualModule virtualModuleId contents);;;
            ret (Some (SourceFile virtualModuleId []))
          else
            call (Throw (CommandError
              ("Invalid external alias type: " +:+ Js.dq +:+ replaceWith external +:+ Js.dq
               +:+ " for module " +:+ Js.dq +:+ moduleName +:+ Js.dq
               +:+ " (platform: " +:+ showPlatform platform
               +:+ ", originModulePath: " +:+ originModulePath context +:+ ")")))
        else firstExternal rest context moduleName platform
    end.

(** Custom externals support. *)
Definition customExternals : Stage Error :=
  fun context moduleName platform =>
    if Js.endsWith moduleName "/package.json" then ret None
    else firstExternal externals context moduleName platform.

(** The own property names of [Object.prototype]. The tables of this module
    are object literals, so [in] and a property read find these names too. *)
Definition objectPrototypeMembers : list string :=
  ["constructor"; "hasOwnProperty"; "isPrototypeOf"; "propertyIsEnumerable";
   "toLocaleString"; "toString"; "valueOf"; "__proto__";
   "__defineGetter__"; "__defineSetter__"; "__lookupGetter__"; "__lookupSetter__"].

Definition inObjectPrototype (name : string) : bool :=
  existsb (String.eqb name) objectPrototypeMembers.

(** Letters, digits, [_] and [$]: the characters of the string keys of the
    built-in objects. *)
Definition isKeyChar (c : ascii) : bool :=
  let n := nat_of_ascii c in
  (48 <=? n) && (n <=? 57) || (65 <=? n) && (n <=? 90) || (97 <=? n) && (n <=? 122)
  || Ascii.eqb c "_" || Ascii.eqb c "$".

Fixpoint allKeyChars (s : string) : bool :=
  match s with
  | EmptyString => true
  | String c rest => isKeyChar c && allKeyChars rest
  end.

(** Whether a built-in object can have a property of this name; every other
    name reads [undefined] on it. *)
Definition isBuiltinKey (name : string) : bool :=
  Js.truthy name && allKeyChars name.

(** [aliases[platform][moduleName]] where [platform] is not an own property
    of [aliases] but a member of [Object.prototype]: a property of the
    built-in object that [aliases] inherits under that name. *)
Definition inheritedAlias (member moduleName : string) : Outcome Error (option Specifier) :=
  if isBuiltinKey moduleName then
    match builtinProperty member moduleName with
    | Return (StringValue redirected) =>
        Return (if Js.truthy redirected then Some (Named redirected) else None)
    | Return (OtherValue truthy) =>
        Return (if truthy then Some (Inherited member moduleName) else None)
    | Throw error => Throw error
    end
  else Return None.

(** [platform && platform in aliases && aliases[platform][moduleName]]: the
    value handed on as [redirectedModuleName] when the condition is truthy,
    [None] when it is falsy. Both reads go through the prototype chain: a
    table answers for its own keys and, with a function or an object, for the
    members of [Object.prototype]. *)
Definition exactAlias (platform : option string) (moduleName : string)
    : Outcome Error (option Specifier) :=
  match platform with
  | Some p =>
      if Js.truthy p then
        match List.find (fun entry => String.eqb (fst entry) p) aliases with
        | Some (_, table) =>
            match List.find (fun entry => String.eqb (fst entry) moduleName) table with
            | Some (_, target) =>
                Return (if Js.truthy target then Some (Named target) else None)
            | None =>
                Return (if inObjectPrototype moduleName
                        then Some (Inherited p moduleName) else None)
            end
        | None =>
            if inObjectPrototype p then inheritedAlias p moduleName
            else Return None
        end
      else Return None
  | None => Return None
  end.

(** The loop of the alias stage over the universal aliases. *)
Fixpoint firstUniversalAlias (universal : list UniversalAlias) : Stage Error :=
  fun context moduleName platform =>
    match universal with
    | [] => ret None
    | (matcher, alias) :: rest =>
        match matcher moduleName with
        | Some m =>
            let aliasedModule := Js.expandBackrefs m alias in
            r <- call (getStrictResolver context platform aliasedModule);;
            ret (Some r)
        | None => firstUniversalAlias rest context moduleName platform
        end
    end.

(** Basic moduleId aliases. *)
Definition moduleIdAliases : Stage Error :=
  fun context moduleName platform =>
    alias <- call (exactAlias platform moduleName);;
    match alias with
    | Some redirectedModuleName =>
        r <- call (getStrictResolver context platform redirectedModuleName);;
        ret (Some r)
    | None =>
        universal <- getUniversalAliases;;
        firstUniversalAlias universal context moduleName platform
    end.

(** The canonical installation of React Native:
    [path.dirname(resolveFrom(config.projectRoot, 'react-native/package.json'))]. *)
Definition reactNativePath : string :=
  pathDirname (resolveFrom (projectRoot config) "react-native/package.json").

Definition multipleVersionsWarning : string :=
  "Multiple React Native versions detected, resolving only: " +:+ reactNativePath.

(** React Native strict version detection; [enabled] is the argument, with
    its default [false] when it is [undefined]. *)
Definition createReactNativeStrictVersionResolver (enabled : option bool) : Stage Error :=
  let enabled := default false enabled in
  fun context moduleName platform =>
    if negb enabled
       || negb (String.eqb moduleName "react-native"
                || Js.startsWith moduleName "react-native/")
    then ret None
    else
      resolved <- call (getStrictResolver context platform moduleName);;
      match resolved with
      | SourceFile filePath _ =>
          if Js.startsWith filePath reactNativePath then ret (Some resolved)
          else
            match redirectModulePath context
                    (Js.replace moduleName "react-native" reactNativePath) with
            | None => ret None
            | Some redirectPath =>
                redirectResolved <- call (getStrictResolver context platform redirectPath);;
                warned <- gets warnedMultipleReactNativeVersions;;
                (if negb warned then
                   modify set_warnedMultipleReactNativeVersions;;;
                   modify (logWarn multipleVersionsWarning)
                 else ret tt);;;
                ret (Some redirectResolved)
            end
      | _ => ret (Some resolved)
      end.

(** [normalizeSlashes(p)] *)
Definition normalizeSlashes (p : string) : string :=
  Js.mapChars (fun c => if Ascii.eqb c Js.backslash then "/"%char else c) p.

(** [normalizeSlashes(filePath).replace(/.*node_modules\//, '')] *)
Definition normalName (filePath : string) : string :=
  Js.dropThrough "node_modules/" true (normalizeSlashes filePath).

(** Complex post-resolution rewrites. *)
Definition postResolutionRewrites : Stage Error :=
  fun context moduleName platform =>
    if bool_decide (platform = Some "web")
       && Js.includesPat inReactNativeWeb (originModulePath context)
       && Js.includes moduleName "/modules/AssetRegistry"
    then
      p <- getAssetRegistryPath;;
      ret (Some (SourceFile p []))
    else
      result <- call (getStrictResolver context platform moduleName);;
      match result with
      | SourceFile filePath fields =>
          if bool_decide (platform = Some "web") then
            if Js.includes filePath "node_modules" then
              match shouldCreateVirtualShim (normalName filePath) with
              | Some shimFile =>
                  if Js.truthy shimFile then
                    let virtualId := Js.NUL +:+ "shim:" +:+ normalName filePath in
                    has <- gets (hasVirtualModule virtualId);;
                    (if negb has
                     then modify (setVirtualModule virtualId (readFileSync shimFile))
                     else ret tt);;;
                    ret (Some (SourceFile virtualId fields))
                  else ret (Some result)
              | None => ret (Some result)
              end
            else ret (Some result)
          else
            if enabledOption (isReactCanaryEnabled options)
               && Js.includes filePath "node_modules"
            then
              match shouldCreateVirtualCanary (normalName filePath) with
              | Some canaryFile =>
                  if Js.truthy canaryFile
                  then ret (Some (SourceFile canaryFile fields))
                  else ret (Some result)
              | None => ret (Some result)
              end
            else ret (Some result)
      | _ => ret (Some result)
      end.

(** The resolvers [withExtendedResolver] hands to [withMetroResolvers]. *)
Definition resolvers : list (Stage Error) :=
  [mockProductionReact;
   tsconfigPaths;
   nodeExternals;
   customExternals;
   moduleIdAliases;
   createReactNativeStrictVersionResolver (isReactNativeStrictVersionEnabled options);
   postResolutionRewrites].

End WithExtendedResolver.

(** ** [withWebPolyfills] *)

Section WithWebPolyfills.
Context `{H : Host}.
Variable config : Config.

Local Open Scope stage_scope.

(** [config.serializer.getPolyfills], or [() => []] when there is none. *)
Definition originalGetPolyfills (platform : option string) : list string :=
  match serializer_getPolyfills config with
  | Some f => f platform
  | None => []
  end.

Definition virtualEnvVarId : string := Js.NUL +:+ "polyfill:environment-variables".

Definition virtualModuleId : string := Js.NUL +:+ "polyfill:external-require".

Definition unavailable : string :=
  "(moduleId) => { throw new Error(`Node.js standard library module ${moduleId} is not available in this JavaScript environment`);}".

(** The source of the external-require polyfill. *)
Definition externalRequireSource (platform : option string) : string :=
  if bool_decide (platform = Some "web") then
    "global.$$require_external = typeof window === " +:+ Js.dq +:+ "undefined" +:+ Js.dq
    +:+ " ? require : () => null;"
  else
    "try { global.$$require_external = typeof expo === " +:+ Js.dq +:+ "undefined" +:+ Js.dq
    +:+ " ? require : " +:+ unavailable
    +:+ " } catch { global.$$require_external = " +:+ unavailable +:+ " }".

(** [getPolyfills(ctx)], on [ctx.platform]. *)
Definition getPolyfills (platform : option string) : M Error (list string) :=
  modify (setVirtualModule virtualEnvVarId "//");;;
  modify (setVirtualModule virtualModuleId (externalRequireSource platform));;;
  if bool_decide (platform = Some "web") then
    ret [virtualModuleId; virtualEnvVarId;
         requireResolve "@react-native/js-polyfills/error-guard"]
  else
    ret (originalGetPolyfills platform ++ [virtualModuleId; virtualEnvVarId])%list.
End WithWebPolyfills.

(** ** [withMetroMultiPlatformAsync] *)

Module MultiPlatform.

(** The second argument of [withMetroMultiPlatformAsync], as far as the
    resolver and the polyfills depend on it. *)
Record Options := {
  config : Config;
  isTsconfigPathsEnabled : bool;
  webOutput : option string;
  isFastResolverEnabled : option bool;
  isExporting : option bool;
  isReactCanaryEnabled : bool;
  isReactNativeStrictVersionEnabled : bool;
}.

(** What the bundler gets back: the polyfill list and the resolver chain,
    with the configuration and the options the chain was built from. *)
Record Installed `{H : Host} := {
  installedConfig : Config;
  installedOptions : ExtendedResolverOptions;
  installedPolyfills : option string -> M Error (list string);
  installedResolvers : list (Stage Error);
}.

End MultiPlatform.

Section WithMetroMultiPlatformAsync.
Context `{H : Host}.

(** [if (!config.projectRoot) config.projectRoot = projectRoot] *)
Definition withProjectRoot (root : string) (c : Config) : Config :=
  {| projectRoot := if Js.truthy (projectRoot c) then projectRoot c else root;
     transformer_assetRegistryPath := transformer_assetRegistryPath c;
     serializer_getPolyfills := serializer_getPolyfills c |}.

(** The options object of the call of [withExtendedResolver] that ends
    [withMetroMultiPlatformAsync]. *)
Definition extendedResolverOptions (root : string) (o : MultiPlatform.Options)
    : ExtendedResolverOptions :=
  {| tsconfig :=
       if MultiPlatform.isTsconfigPathsEnabled o then loadTsConfigPathsAsync root else None;
     isExporting := MultiPlatform.isExporting o;
     isTsconfigPathsEnabled := Some (MultiPlatform.isTsconfigPathsEnabled o);
     isFastResolverEnabled := MultiPlatform.isFastResolverEnabled o;
     isReactCanaryEnabled := Some (MultiPlatform.isReactCanaryEnabled o);
     isReactNativeStrictVersionEnabled := None |}.

(** [withMetroMultiPlatformAsync(projectRoot, options)]. The watch folders,
    the platform list and the environment variables it also sets are not
    read by the chain and are left out. *)
Definition withMetroMultiPlatformAsync (root : string) (o : MultiPlatform.Options)
    : MultiPlatform.Installed :=
  let c := withProjectRoot root (MultiPlatform.config o) in
  let opts := extendedResolverOptions root o in
  {| MultiPlatform.installedConfig := c;
     MultiPlatform.installedOptions := opts;
     MultiPlatform.installedPolyfills := getPolyfills c;
     MultiPlatform.installedResolvers := resolvers c opts |}.
End WithMetroMultiPlatformAsync.

(** ** A small project to run the chain on *)

Module Demo.

(** The failures of the resolver of the demo project. *)
Inductive Failure :=
  | NameNotFound (moduleName : string)
  | PathNotFound (moduleName : string)
  | InvalidPackage (moduleName : string)
  | NotAString (holder property : string)
  | Command (message : string).

(** The files of the project: a copy of React Native under the project
    root, a second copy inside a workspace package, a third inside an
    installed package whose name starts with [react-native], and a few
    packages. *)
Definition files : list (string * string) :=
  [("react-native-web", "/app/node_modules/react-native-web/dist/index.js");
   ("@expo/vector-icons/Feather", "/app/node_modules/@expo/vector-icons/Feather.js");
   ("react-native", "/app/packages/ui/node_modules/react-native/index.js");
   ("/app/node_modules/react-native", "/app/node_modules/react-native/index.js");
   ("react-native/Libraries/Core/InitializeCore",
    "/app/packages/ui/node_modules/react-native/Libraries/Core/InitializeCore.js");
   ("/app/node_modules/react-native/Libraries/Core/InitializeCore",
    "/app/node_modules/react-native/Libraries/Core/InitializeCore.js");
   ("path", "/app/node_modules/path/index.js");
   ("./App", "/app/App.js");
   ("react-native/Libraries/Image/resolveAssetSource",
    "/app/node_modules/react-native/Libraries/Image/resolveAssetSource.js");
   ("react-native/Libraries/Utilities/Platform",
    "/app/node_modules/react-native-reanimated/node_modules/react-native/Libraries/Utilities/Platform.js");
   ("/app/node_modules/react-native/Libraries/Utilities/Platform",
    "/app/node_modules/react-native/Libraries/Utilities/Platform.js")].

Definition resolve (context : ResolutionContext) (moduleName : string)
    (platform : option string) : Outcome Failure Resolution :=
  match List.find (fun entry => String.eqb (fst entry) moduleName) files with
  | Some (_, filePath) => Return (SourceFile filePath [])
  | None =>
      if String.eqb moduleName "broken" then Throw (InvalidPackage moduleName)
      else if Js.startsWith moduleName "." then Throw (PathNotFound moduleName)
      else Throw (NameNotFound moduleName)
  end.

(** The resolver on whatever it is handed: a value that is no string is
    refused, as the string and path functions of Node.js refuse it. *)
Definition resolveValue (context : ResolutionContext) (specifier : Specifier)
    (platform : option string) : Outcome Failure Resolution :=
  match specifier with
  | Named moduleName => resolve context moduleName platform
  | Inherited holder property => Throw (NotAString holder property)
  end.

(** The properties of the built-in objects this small host knows: the
    name, the arity and the prototype of [Object], which an object literal
    inherits as its [constructor]. It answers [undefined] to every other
    read. *)
Definition builtin (member property : string) : Outcome Failure PropertyValue :=
  if String.eqb member "constructor" then
    if String.eqb property "name" then Return (StringValue "Object")
    else if String.eqb property "length" then Return (OtherValue true)
    else if String.eqb property "prototype" then Return (OtherValue true)
    else Return (OtherValue false)
  else Return (OtherValue false).

(** Modelled from the spec: [isNodeExternal] of [./externals], which is not
    part of the sources at hand. Built-in modules are recognized by a
    canonical normalization of the specifier: the [node:] scheme is dropped
    and the rest is looked up among the names of the standard library. *)
Definition nodeExternalId (moduleName : string) : option string :=
  let moduleId :=
    if Js.startsWith moduleName "node:" then Js.drop 5 moduleName else moduleName in
  if existsb (String.eqb moduleId) ["fs"; "fs/promises"; "path"; "os"; "crypto"; "http"]
  then Some moduleId else None.

(** Modelled from the spec: [isServerEnvironment] of
    [../middleware/metroOptions], which is not part of the sources at hand.
    The server-like environments are [node] and [react-server]. *)
Definition serverEnvironment (environment : option string) : bool :=
  bool_decide (environment = Some "node") || bool_decide (environment = Some "react-server").

(** [path.dirname] on a POSIX path without a trailing slash. *)
Fixpoint dirname (p : string) : string :=
  match p with
  | EmptyString => EmptyString
  | String c rest =>
      if Js.includes rest "/" then String c (dirname rest) else EmptyString
  end.

Definition host : Host :=
  {| Error := Failure;
     isFailedToResolveNameError :=
       fun e => match e with NameNotFound _ => true | _ => false end;
     isFailedToResolvePathError :=
       fun e => match e with PathNotFound _ => true | _ => false end;
     CommandError := Command;
     metroResolve := resolveValue;
     fastResolve := resolveValue;
     builtinProperty := builtin;
     isNodeExternal := nodeExternalId;
     shouldCreateVirtualShim :=
       fun name =>
         if String.eqb name "react-native-web/dist/index.js"
         then Some "/cli/static/shims/react-native-web/dist/index.js" else None;
     shouldCreateVirtualCanary :=
       fun name =>
         if String.eqb name "react-native/index.js"
         then Some "/cli/static/canary/react-native/index.js" else None;
     isServerEnvironment := serverEnvironment;
     resolveWithTsConfigPaths := fun _ _ moduleName resolve => resolve moduleName;
     readFileSync := fun file => "// " +:+ file;
     realpathSync := fun p => p;
     pathIsAbsolute := fun p => Js.startsWith p "/";
     pathResolve := fun p => p;
     pathDirname := dirname;
     resolveFrom := fun root id => root +:+ "/node_modules/" +:+ id;
     resolveFromSilent := fun root id => Some (root +:+ "/node_modules/" +:+ id);
     requireResolve := fun id => "/cli/node_modules/" +:+ id +:+ ".js";
     loadTsConfigPathsAsync := fun _ => None |}.

Definition config : Config :=
  {| projectRoot := "/app";
     transformer_assetRegistryPath := None;
     serializer_getPolyfills := Some (fun _ => ["/app/node_modules/react-native/polyfill.js"]) |}.

(** The options of a plain development server, and the same with the
    strict-version redirector switched on. *)
Definition options : ExtendedResolverOptions :=
  {| tsconfig := None;
     isTsconfigPathsEnabled := Some false;
     isFastResolverEnabled := None;
     isExporting := None;
     isReactCanaryEnabled := Some false;
     isReactNativeStrictVersionEnabled := None |}.

Definition strictOptions : ExtendedResolverOptions :=
  {| tsconfig := None;
     isTsconfigPathsEnabled := Some false;
     isFastResolverEnabled := None;
     isExporting := None;
     isReactCanaryEnabled := Some false;
     isReactNativeStrictVersionEnabled := Some true |}.

(** A request context from a file of the project, in the given
    environment and mode. *)
Definition context (environment : option string) (dev exporting : bool) : ResolutionContext :=
  {| originModulePath := "/app/App.js";
     dev := dev;
     customResolverOptions := {| environment := environment; exporting := exporting |};
     redirectModulePath := fun p => Some p;
     resolveRequest := None |}.

Definition world : World := initialWorld config options ∅ [].

End Demo.

(** ** Vocabulary of the properties *)

(** A stage that hands back a strict resolution: its result, or its throw. *)
Definition strictly {E} (o : Outcome E Resolution) : Outcome E (option Resolution) :=
  match o with
  | Return r => Return (Some r)
  | Throw e => Throw e
  end.



(** The identifier and the source of the virtual module of a built-in:
    [`\0node:${moduleId}`] and
    [`module.exports=$$require_external('node:${moduleId}');`]. *)
Definition nodeVirtualId (moduleId : string) : string := Js.NUL +:+ "node:" +:+ moduleId.
Definition nodeVirtualSource (moduleId : string) : string :=
  "module.exports=$$require_external('node:" +:+ moduleId +:+ "');".

(** The same for a declared package external:
    [`\0node:${moduleName}`] and
    [`module.exports=$$require_external('${moduleName}')`]. *)
Definition customVirtualId (moduleName : string) : string := Js.NUL +:+ "node:" +:+ moduleName.
Definition customVirtualSource (moduleName : string) : string :=
  "module.exports=$$require_external('" +:+ moduleName +:+ "')".

(** The namespace of a virtual identifier: its text up to the first colon,
    the colon included; nothing when it has no colon. *)
Fixpoint namespaceOf (id : string) : string :=
  match id with
  | EmptyString => EmptyString
  | String c rest =>
      if Ascii.eqb c ":" then String c EmptyString
      else if Js.includes rest ":" then String c (namespaceOf rest)
      else EmptyString
  end.

(** A request to a stage, and the world after a stage served a list of
    requests one after the other. A throw ends a request, not the process:
    the writes it made stay. *)
Record Request := {
  requestContext : ResolutionContext;
  requestModuleName : string;
  requestPlatform : option string;
}.

Definition serveOne {E} (stage : Stage E) (w : World) (r : Request) : World :=
  snd (stage (requestContext r) (requestModuleName r) (requestPlatform r) w).

Definition serve {E} (stage : Stage E) (requests : list Request) (w : World) : World :=
  fold_left (serveOne stage) requests w.

(** The exact lookup of the alias stage leaves the table for the built-in
    objects: the platform names a member of [Object.prototype], and the
    specifier can name a property of a built-in object. *)
Definition readsBuiltin (platform : option string) (moduleName : string) : bool :=
  match platform with
  | Some p => inObjectPrototype p && isBuiltinKey moduleName
  | None => false
  end.

(** A file lies inside a directory: its path is the path of the directory,
    a separator, and more. *)
Definition insideDirectory (directory filePath : string) : bool :=
  Js.startsWith filePath (directory +:+ "/").

(** The imports the strict-version stage looks at. *)
Definition isReactNativeImport (moduleName : string) : bool :=
  String.eqb moduleName "react-native" || Js.startsWith moduleName "react-native/".

Section Redirects.
Context `{H : Host}.
Variable config : Config.
Variable options : ExtendedResolverOptions.

(** A request the enabled strict-version stage redirects: an import of
    React Native that resolves to a source file not under the canonical
    path, for which a redirected path exists and resolves. *)
Definition redirects (r : Request) : bool :=
  isReactNativeImport (requestModuleName r) &&
  match getStrictResolver options (requestContext r) (requestPlatform r)
          (requestModuleName r) with
  | Return (SourceFile filePath _) =>
      negb (Js.startsWith filePath (reactNativePath config)) &&
      match redirectModulePath (requestContext r)
              (Js.replace (requestModuleName r) "react-native" (reactNativePath config)) with
      | Some redirectPath =>
          match getStrictResolver options (requestContext r) (requestPlatform r)
                  redirectPath with
          | Return _ => true
          | Throw _ => false
          end
      | None => false
      end
  | _ => false
  end.
End Redirects.

(** The request the post-resolution stage answers with the asset registry. *)
Definition isAssetRegistryRequest (context : ResolutionContext) (moduleName : string)
    (platform : option string) : bool :=
  bool_decide (platform = Some "web")
  && Js.includesPat inReactNativeWeb (originModulePath context)
  && Js.includes moduleName "/modules/AssetRegistry".

(** The identifier of the virtual module of a shim. *)
Definition shimVirtualId (filePath : string) : string :=
  Js.NUL +:+ "shim:" +:+ normalName filePath.



Section HostPaths.
Context `{H : Host}.
Variable config : Config.
Variable options : ExtendedResolverOptions.


End HostPaths.

(** ** The other functions of the module *)

(** [shouldAliasModule(input, alias)]: the incoming resolution should be
    swapped. [typeof filePath === 'string'] holds of every [sourceFile]. *)
Definition shouldAliasModule (inputPlatform : option string) (result : Resolution)
    (aliasPlatform aliasOutput : string) : bool :=
  bool_decide (inputPlatform = Some aliasPlatform)
  && match result with
     | SourceFile filePath _ => Js.endsWith (normalizeSlashes filePath) aliasOutput
     | _ => false
     end.

(** [isDirectoryIn(targetPath, rootPath)] *)
Definition isDirectoryIn (targetPath rootPath : string) : bool :=
  Js.startsWith targetPath rootPath
  && (String.length rootPath <=? String.length targetPath)%nat.

(** [[...new Set(items)]]: the items in the order they first occur, [seen]
    being what the set holds already. *)
Fixpoint setValues (seen items : list string) : list string :=
  match items with
  | [] => []
  | item :: rest =>
      if existsb (String.eqb item) seen then setValues seen rest
      else item :: setValues (item :: seen) rest
  end.

(** The platform list [withMetroMultiPlatformAsync] stores in
    [config.resolver.platforms]: the entries of [platformBundlers] bundled by
    metro and listed in [exp.platforms], joined without repetition with the
    platforms of the configuration when these are an array. *)
Definition expoConfigPlatforms (platformBundlers : list (string * string))
    (expPlatforms configPlatforms : option (list string)) : list string :=
  let fromExpo :=
    List.map fst
      (List.filter
         (fun entry =>
            String.eqb (snd entry) "metro"
            && match expPlatforms with
               | Some platforms => existsb (String.eqb (fst entry)) platforms
               | None => false
               end)
         platformBundlers) in
  match configPlatforms with
  | Some platforms => setValues [] (fromExpo ++ platforms)
  | None => fromExpo
  end.

(** [context.mainFields]: a list of field names, or, where the table of the
    preferred fields is read through the prototype chain, the function or
    object [Object.prototype[member]]. *)
Inductive MainFields :=
  | FieldNames (names : list string)
  | InheritedFields (member : string).

#[warning="-uniform-inheritance"]
Coercion FieldNames : list >-> MainFields.

(** The resolution context as the context mutation of [withExtendedResolver]
    sees it: the fields the chain reads, and the fields the mutation sets. *)
Record CustomResolutionContext := {
  resolutionContext : ResolutionContext;
  preferNativePlatform : bool;
  sourceExts : list string;
  mainFields : MainFields;
  unstable_enablePackageExports : bool;
  unstable_conditionsByPlatform : list (string * list string);
  unstable_conditionNames : list string;
}.

(** A request to the context mutation. *)
Record ContextRequest := {
  immutableContext : CustomResolutionContext;
  contextPlatform : option string;
}.

Section ContextMutation.
Context `{H : Host}.

(** [env.EXPO_METRO_NO_MAIN_FIELD_OVERRIDE] *)
Variable EXPO_METRO_NO_MAIN_FIELD_OVERRIDE : bool.

Definition preferredMainFields : list (string * list string) :=
  [("web", ["browser"; "module"; "main"])].

(** [preferredMainFields[platform]] when [platform && platform in
    preferredMainFields] is truthy. Both go through the prototype chain: the
    table answers for its own key and, with a function or an object, for the
    members of [Object.prototype]. *)
Definition preferredMainFieldsFor (platform : option string) : option MainFields :=
  match platform with
  | Some p =>
      if Js.truthy p then
        match List.find (fun entry => String.eqb (fst entry) p) preferredMainFields with
        | Some (_, fields) => Some (FieldNames fields)
        | None => if inObjectPrototype p then Some (InheritedFields p) else None
        end
      else None
  | None => None
  end.

(** The function handed to [withMetroMutatedResolverContext], with the
    closure variable [nodejsSourceExtensions] passed in and out. *)
Definition mutateResolverContext (nodejsSourceExtensions : option (list string))
    (immutableContext : CustomResolutionContext) (platform : option string)
    : CustomResolutionContext * option (list string) :=
  let preferNative := negb (bool_decide (platform = Some "web")) in
  let environment :=
    environment (customResolverOptions (resolutionContext immutableContext)) in
  if isServerEnvironment environment then
    let extensions :=
      match nodejsSourceExtensions with
      | None => getNodejsExtensions (sourceExts immutableContext)
      | Some cached => cached
      end in
    ({| resolutionContext := resolutionContext immutableContext;
        preferNativePlatform := preferNative;
        sourceExts := extensions;
        mainFields :=
          if bool_decide (platform = Some "web") then ["main"; "module"]
          else ["react-native"; "main"; "module"];
        unstable_enablePackageExports := true;
        unstable_conditionsByPlatform := [];
        unstable_conditionNames :=
          if bool_decide (environment = Some "react-server")
          then ["node"; "require"; "react-server"; "workerd"]
          else ["node"; "require"] |},
     Some extensions)
  else
    ({| resolutionContext := resolutionContext immutableContext;
        preferNativePlatform := preferNative;
        sourceExts := sourceExts immutableContext;
        mainFields :=
          if negb EXPO_METRO_NO_MAIN_FIELD_OVERRIDE then
            match preferredMainFieldsFor platform with
            | Some fields => fields
            | None => mainFields immutableContext
            end
          else mainFields immutableContext;
        unstable_enablePackageExports := unstable_enablePackageExports immutableContext;
        unstable_conditionsByPlatform := unstable_conditionsByPlatform immutableContext;
        unstable_conditionNames := unstable_conditionNames immutableContext |},
     nodejsSourceExtensions).

(** The closure variable after the mutation served a list of requests. *)
Definition extensionsAfter (requests : list ContextRequest)
    (nodejsSourceExtensions : option (list string)) : option (list string) :=
  fold_left
    (fun cache r => snd (mutateResolverContext cache (immutableContext r) (contextPlatform r)))
    requests nodejsSourceExtensions.

(** The request comes from a server-like environment. *)
Definition isServerRequest (r : ContextRequest) : bool :=
  isServerEnvironment
    (environment (customResolverOptions (resolutionContext (immutableContext r)))).
End ContextMutation.

(** The world after a list of calls into the chain, each to some resolver
    with some request, and after a list of calls of [getPolyfills]. *)
Definition serveAll {E} (calls : list (Stage E * Request)) (w : World) : World :=
  fold_left (fun w call => serveOne (fst call) w (snd call)) calls w.

Definition polyfillsAfter `{H : Host} (config : Config) (platforms : list (option string))
    (w : World) : World :=
  fold_left (fun w platform => snd (getPolyfills config platform w)) platforms w.

(** The context with another upstream resolver. *)
Definition withResolveRequest (upstream : option nat) (context : ResolutionContext)
    : ResolutionContext :=
  {| originModulePath := originModulePath context;
     dev := dev context;
     customResolverOptions := customResolverOptions context;
     redirectModulePath := redirectModulePath context;
     resolveRequest := upstream |}.

(** * Properties *)

(** ** Extension order for Node.js environments *)

Lemma filter_filter_neg {A} (f : A → bool) (l : list A) :
  List.filter (fun x => negb (f x)) (List.filter f l) = [].
Proof.
  induction l as [|x l IH]; simpl; [done|].
  destruct (f x) eqn:Hx; simpl; [by rewrite Hx|done].
Qed.

Lemma filter_idempotent {A} (f : A → bool) (l : list A) :
  List.filter f (List.filter f l) = List.filter f l.
Proof.
  induction l as [|x l IH]; simpl; [done|].
  destruct (f x) eqn:Hx; simpl; [by rewrite Hx, IH|done].
Qed.

Lemma filter_take_drop_nil {A} (f : A → bool) (n : nat) (l : list A) :
  List.filter f l = [] →
  List.filter f (take n l) = [] ∧ List.filter f (List.skipn n l) = [].
Proof.
  intros Hl. apply app_eq_nil. by rewrite <- List.filter_app, take_drop.
Qed.

(** The extensions that are not [mjs] keep their places relative to each
    other, whatever the list. *)
Lemma getNodejsExtensions_keeps_others (srcExts : list string) :
  List.filter (fun ext => negb (isMjs ext)) (getNodejsExtensions srcExts)
  = List.filter (fun ext => negb (isMjs ext)) srcExts.
Proof.
  unfold getNodejsExtensions, spliceInsert.
  set (k := Z.to_nat _).
  rewrite !List.filter_app, filter_filter_neg. simpl.
  rewrite <- List.filter_app, take_drop.
  apply filter_idempotent.
Qed.

(** The [mjs] extensions are all kept, in their order. *)
Lemma getNodejsExtensions_keeps_mjs (srcExts : list string) :
  List.filter isMjs (getNodejsExtensions srcExts) = List.filter isMjs srcExts.
Proof.
  unfold getNodejsExtensions, spliceInsert.
  set (k := Z.to_nat _).
  assert (Hnone : List.filter isMjs (List.filter (fun ext => negb (isMjs ext)) srcExts) = []).
  { induction srcExts as [|x l IH]; simpl; [done|].
    destruct (isMjs x) eqn:Hx; simpl; [done|by rewrite Hx]. }
  destruct (filter_take_drop_nil isMjs k _ Hnone) as [Ht Hd].
  rewrite !List.filter_app, Ht, Hd, filter_idempotent. simpl. by rewrite app_nil_r.
Qed.

(** C7. On [["native.js"; "js"; "mjs"; "json"]] the computed order puts
    [mjs] right after [js] and before [json]; and on every list of source
    extensions the extensions that are not [mjs] come out in the order they
    went in. *)
Theorem getNodejsExtensions_mjs_after_js :
  getNodejsExtensions ["native.js"; "js"; "mjs"; "json"] = ["native.js"; "js"; "mjs"; "json"]
  ∧ ∀ srcExts : list string,
      List.filter (fun ext => negb (isMjs ext)) (getNodejsExtensions srcExts)
      = List.filter (fun ext => negb (isMjs ext)) srcExts.
Proof.
  split; [reflexivity|]. apply getNodejsExtensions_keeps_others.
Qed.

(** ** The resolver adapter and the externals *)

Section Externals.
Context `{H : Host}.
Variable config : Config.
Variable options : ExtendedResolverOptions.

(** C4. The optional resolver answers [null] exactly when the strict
    resolution throws an error classified as failed-to-resolve-name or
    failed-to-resolve-path; it throws again, unchanged, every other error;
    and it answers the result of a strict resolution that succeeds. *)
Theorem getOptionalResolver_suppresses_only_not_found
    (context : ResolutionContext) (platform : option string) (moduleName : string) :
  (getOptionalResolver options context platform moduleName = Return None
   ↔ ∃ error, getStrictResolver options context platform moduleName = Throw error
              ∧ (isFailedToResolveNameError error || isFailedToResolvePathError error) = true)
  ∧ (∀ error, getStrictResolver options context platform moduleName = Throw error →
              (isFailedToResolveNameError error || isFailedToResolvePathError error) = false →
              getOptionalResolver options context platform moduleName = Throw error)
  ∧ (∀ r, getStrictResolver options context platform moduleName = Return r →
          getOptionalResolver options context platform moduleName = Return (Some r)).
Proof.
  unfold getOptionalResolver.
  destruct (getStrictResolver options context platform moduleName) as [r|error] eqn:Hs.
  - split; [|split].
    + split; [discriminate|]. intros (e & He & _). discriminate.
    + intros e He. discriminate.
    + intros r' [= ->]. reflexivity.
  - destruct (isFailedToResolveNameError error || isFailedToResolvePathError error) eqn:Hc;
      simpl; (split; [|split]).
    + split; [|done]. intros _. exists error. by rewrite Hc.
    + intros e [= <-]. congruence.
    + discriminate.
    + split; [discriminate|]. intros (e & [= <-] & He). congruence.
    + intros e [= <-] _. reflexivity.
    + discriminate.
Qed.

(** C1. On a specifier that names a built-in module: in the environments
    [node] and [react-server] the stage answers a [sourceFile] at the
    virtual identifier of the module and registers its source; elsewhere
    it asks the optional resolver first and answers its result, and when
    that is [null] it answers [empty] on [web] and [null] on every other
    platform. *)
Theorem nodeExternals_on_builtin
    (context : ResolutionContext) (moduleName : string) (platform : option string)
    (moduleId : string) (w : World) :
  isNodeExternal moduleName = Some moduleId →
  Js.truthy moduleId = true →
  ((environment (customResolverOptions context) = Some "node"
    ∨ environment (customResolverOptions context) = Some "react-server") →
     nodeExternals options context moduleName platform w
     = (Return (Some (SourceFile (nodeVirtualId moduleId) [])),
        setVirtualModule (nodeVirtualId moduleId) (nodeVirtualSource moduleId) w)
     ∧ virtualModules (setVirtualModule (nodeVirtualId moduleId) (nodeVirtualSource moduleId) w)
         !! nodeVirtualId moduleId = Some (nodeVirtualSource moduleId))
  ∧ (¬ (environment (customResolverOptions context) = Some "node"
        ∨ environment (customResolverOptions context) = Some "react-server") →
     nodeExternals options context moduleName platform w
     = match getOptionalResolver options context platform moduleName with
       | Return (Some r) => (Return (Some r), w)
       | Return None =>
           if bool_decide (platform = Some "web")
           then (Return (Some Empty), w) else (Return None, w)
       | Throw error => (Throw error, w)
       end).
Proof.
  intros Hid Htruthy. unfold nodeExternals. rewrite Hid, Htruthy. simpl.
  set (env := environment (customResolverOptions context)). split.
  - intros Hserver.
    assert (bool_decide (env = Some "node") || bool_decide (env = Some "react-server") = true)
      as ->.
    { destruct Hserver as [-> | ->]; reflexivity. }
    simpl. split; [reflexivity|].
    apply lookup_insert_eq.
  - intros Hbrowser.
    assert (bool_decide (env = Some "node") || bool_decide (env = Some "react-server") = false)
      as ->.
    { apply orb_false_iff. split; apply bool_decide_eq_false; tauto. }
    simpl. unfold bind, call.
    destruct (getOptionalResolver options context platform moduleName) as [[r|]|e];
      try reflexivity.
    by destruct (bool_decide (platform = Some "web")).
Qed.
End Externals.

(** The optional resolver on the demo project: [fs] is not installed, the
    package [broken] has malformed metadata, and [path] is installed. *)
Lemma getOptionalResolver_suppresses_only_not_found_witness :
  getOptionalResolver (H := Demo.host) Demo.options (Demo.context None true false)
    (Some "ios") "fs" = Return None
  ∧ getOptionalResolver (H := Demo.host) Demo.options (Demo.context None true false)
      (Some "ios") "broken" = Throw (Demo.InvalidPackage "broken")
  ∧ getOptionalResolver (H := Demo.host) Demo.options (Demo.context None true false)
      (Some "ios") "path"
    = Return (Some (SourceFile "/app/node_modules/path/index.js" [])).
Proof.
  split; [|split].
  - apply (proj1 (getOptionalResolver_suppresses_only_not_found (H := Demo.host)
                    Demo.options (Demo.context None true false) (Some "ios") "fs")).
    exists (Demo.NameNotFound "fs"). split; reflexivity.
  - exact (proj1 (proj2 (getOptionalResolver_suppresses_only_not_found (H := Demo.host)
                           Demo.options (Demo.context None true false) (Some "ios") "broken"))
             (Demo.InvalidPackage "broken") eq_refl eq_refl).
  - exact (proj2 (proj2 (getOptionalResolver_suppresses_only_not_found (H := Demo.host)
                           Demo.options (Demo.context None true false) (Some "ios") "path"))
             (SourceFile "/app/node_modules/path/index.js" []) eq_refl).
Defined.

(** The stage on the demo project: [node:fs] in the [node] environment. *)
Lemma nodeExternals_on_builtin_witness :
  (isNodeExternal (Host := Demo.host) "node:fs" = Some "fs" ∧ Js.truthy "fs" = true)
  ∧ nodeExternals (H := Demo.host) Demo.options (Demo.context (Some "node") true false)
      "node:fs" (Some "ios") Demo.world
    = (Return (Some (SourceFile (nodeVirtualId "fs") [])),
       setVirtualModule (nodeVirtualId "fs") (nodeVirtualSource "fs") Demo.world).
Proof.
  split; [split; reflexivity|].
  destruct (nodeExternals_on_builtin (H := Demo.host) Demo.options
              (Demo.context (Some "node") true false) "node:fs" (Some "ios") "fs" Demo.world
              eq_refl eq_refl) as [Hserver _].
  exact (proj1 (Hserver (or_introl eq_refl))).
Defined.

(** ** The declared package externals *)

Section DeclaredExternals.
Context `{H : Host}.

Lemma namespaceOf_node (name : string) :
  namespaceOf (Js.NUL +:+ "node:" +:+ name) = Js.NUL +:+ "node:".
Proof. destruct name; reflexivity. Qed.

(** C3, as the code has it. The stage answers [null] on every specifier
    that ends in [/package.json]; otherwise it produces the
    deferred-require virtual module exactly when [exporting] is not set,
    the environment is server-like and the specifier is on the allow-list,
    whatever [dev] says; and its virtual identifier lies in the namespace
    of the built-in externals. *)
Theorem customExternals_gate
    (context : ResolutionContext) (moduleName : string) (platform : option string)
    (w : World) :
  customExternals context moduleName platform w
  = (if negb (Js.endsWith moduleName "/package.json")
        && negb (exporting (customResolverOptions context))
        && isServerEnvironment (environment (customResolverOptions context))
        && matchesDeclaredExternal moduleName
     then (Return (Some (SourceFile (customVirtualId moduleName) [])),
           setVirtualModule (customVirtualId moduleName) (customVirtualSource moduleName) w)
     else (Return None, w))
  ∧ (∀ moduleId, namespaceOf (customVirtualId moduleName) = namespaceOf (nodeVirtualId moduleId)).
Proof.
  split; [|intros moduleId; unfold customVirtualId, nodeVirtualId;
           by rewrite !namespaceOf_node].
  unfold customExternals.
  destruct (Js.endsWith moduleName "/package.json"); [reflexivity|].
  cbn [negb andb firstExternal externals matches replaceWith].
  destruct (exporting (customResolverOptions context)); [reflexivity|].
  cbn [orb negb andb].
  destruct (isServerEnvironment (environment (customResolverOptions context)));
    [|reflexivity].
  cbn [negb andb].
  destruct (matchesDeclaredExternal moduleName); reflexivity.
Qed.
End DeclaredExternals.

(** C3, as it is stated, fails on the demo project: with [dev] off, in the
    [node] environment and without [exporting], [react] is externalized all
    the same, and its identifier shares the namespace of the built-in [fs]. *)
Lemma customExternals_outside_development :
  dev (Demo.context (Some "node") false false) = false
  ∧ customExternals (H := Demo.host) (Demo.context (Some "node") false false)
      "react" (Some "ios") Demo.world
    = (Return (Some (SourceFile (customVirtualId "react") [])),
       setVirtualModule (customVirtualId "react") (customVirtualSource "react") Demo.world)
  ∧ namespaceOf (customVirtualId "react") = namespaceOf (nodeVirtualId "fs").
Proof. repeat split; reflexivity. Qed.

(** ** The polyfills *)

Section Polyfills.
Context `{H : Host}.
Variable config : Config.

(** C9. [getPolyfills] registers the two virtual modules and answers, on
    [web], the two identifiers and the error-guard path and nothing else,
    and on every other platform the list of the [getPolyfills] of the
    configuration's serializer, the empty list when it has none, with the
    two identifiers at its end. *)
Theorem getPolyfills_lists (platform : option string) (w : World) :
  getPolyfills config platform w
  = (Return (if bool_decide (platform = Some "web")
             then [virtualModuleId; virtualEnvVarId;
                   requireResolve "@react-native/js-polyfills/error-guard"]
             else match serializer_getPolyfills config with
                  | Some original => original platform
                  | None => []
                  end ++ [virtualModuleId; virtualEnvVarId]),
     setVirtualModule virtualModuleId (externalRequireSource platform)
       (setVirtualModule virtualEnvVarId "//" w))
  ∧ virtualModules (snd (getPolyfills config platform w)) !! virtualEnvVarId = Some "//"
  ∧ virtualModules (snd (getPolyfills config platform w)) !! virtualModuleId
    = Some (externalRequireSource platform).
Proof.
  assert (Hrun : getPolyfills config platform w
    = (Return (if bool_decide (platform = Some "web")
               then [virtualModuleId; virtualEnvVarId;
                     requireResolve "@react-native/js-polyfills/error-guard"]
               else match serializer_getPolyfills config with
                    | Some original => original platform
                    | None => []
                    end ++ [virtualModuleId; virtualEnvVarId]),
       setVirtualModule virtualModuleId (externalRequireSource platform)
         (setVirtualModule virtualEnvVarId "//" w))).
  { unfold getPolyfills, originalGetPolyfills, bind, modify, ret.
    by destruct (bool_decide (platform = Some "web")). }
  rewrite Hrun. split; [reflexivity|]. simpl. split.
  - rewrite lookup_insert_ne by discriminate. apply lookup_insert_eq.
  - apply lookup_insert_eq.
Qed.
End Polyfills.

(** ** The public entry point *)

Section EntryPoint.
Context `{H : Host}.

(** C2. Whatever [withMetroMultiPlatformAsync] is given, also with
    [isReactNativeStrictVersionEnabled] set, the options it hands to
    [withExtendedResolver] lack that option; the strict-version stage of
    the chain is then built with [enabled] at its default and answers
    [null] to every request, and the world stays as it was. *)
Theorem strict_version_off_through_entry_point (root : string) (o : MultiPlatform.Options) :
  isReactNativeStrictVersionEnabled
    (MultiPlatform.installedOptions (withMetroMultiPlatformAsync root o)) = None
  ∧ ∃ stage : Stage Error,
      nth_error (MultiPlatform.installedResolvers (withMetroMultiPlatformAsync root o)) 5
      = Some stage
      ∧ stage = createReactNativeStrictVersionResolver
                  (MultiPlatform.installedConfig (withMetroMultiPlatformAsync root o))
                  (MultiPlatform.installedOptions (withMetroMultiPlatformAsync root o))
                  None
      ∧ ∀ (context : ResolutionContext) (moduleName : string) (platform : option string)
          (w : World),
          stage context moduleName platform w = (Return None, w).
Proof.
  split; [reflexivity|].
  eexists. split; [reflexivity|]. split; [reflexivity|].
  intros context moduleName platform w. reflexivity.
Qed.
End EntryPoint.

(** ** The alias tables *)

Section Aliases.
Context `{H : Host}.
Variable config : Config.
Variable options : ExtendedResolverOptions.

Lemma call_strictly (o : Outcome Error Resolution) (w : World) :
  bind (call o) (fun r => ret (Some r)) w = (strictly o, w).
Proof. unfold bind, call, ret, strictly. by destruct o. Qed.

(** The loop over the universal aliases stops at the first pattern that
    matches and resolves its replacement strictly. *)
Lemma firstUniversalAlias_first_match
    (before after : list UniversalAlias) (matcher : string → option (list (option string)))
    (alias : string) (m : list (option string))
    (context : ResolutionContext) (moduleName : string) (platform : option string)
    (w : World) :
  Forall (fun entry : UniversalAlias => fst entry moduleName = None) before →
  matcher moduleName = Some m →
  firstUniversalAlias options (before ++ (matcher, alias) :: after)
    context moduleName platform w
  = (strictly (getStrictResolver options context platform (Js.expandBackrefs m alias)), w).
Proof.
  intros Hbefore Hm. induction Hbefore as [|[mt al] before Hmt _ IH]; simpl.
  - rewrite Hm. apply call_strictly.
  - simpl in Hmt. rewrite Hmt. apply IH.
Qed.

(** The alias stage, by what the exact lookup yields. *)
Lemma moduleIdAliases_exact (context : ResolutionContext) (moduleName : string)
    (platform : option string) (redirected : Specifier) (w : World) :
  exactAlias platform moduleName = Return (Some redirected) →
  moduleIdAliases config options context moduleName platform w
  = (strictly (getStrictResolver options context platform redirected), w).
Proof.
  intros Hexact. unfold moduleIdAliases. rewrite Hexact. unfold bind at 1, call at 1.
  apply call_strictly.
Qed.

Lemma moduleIdAliases_universal (context : ResolutionContext) (moduleName : string)
    (platform : option string) (w : World) :
  exactAlias platform moduleName = Return None →
  moduleIdAliases config options context moduleName platform w
  = bind (getUniversalAliases config)
      (fun universal => firstUniversalAlias options universal context moduleName platform) w.
Proof. intros Hexact. unfold moduleIdAliases. rewrite Hexact. reflexivity. Qed.

Lemma moduleIdAliases_throws (context : ResolutionContext) (moduleName : string)
    (platform : option string) (error : Error) (w : World) :
  exactAlias platform moduleName = Throw error →
  moduleIdAliases config options context moduleName platform w = (Throw error, w).
Proof. intros Hexact. unfold moduleIdAliases. rewrite Hexact. reflexivity. Qed.

Lemma moduleIdAliases_cases (context : ResolutionContext) (moduleName : string)
    (platform : option string) :
  (∃ redirected, ∀ w,
     moduleIdAliases config options context moduleName platform w
     = (strictly (getStrictResolver options context platform redirected), w))
  ∨ (∀ w,
       moduleIdAliases config options context moduleName platform w
       = bind (getUniversalAliases config)
           (fun universal =>
              firstUniversalAlias options universal context moduleName platform) w)
  ∨ (∃ error, ∀ w,
       moduleIdAliases config options context moduleName platform w = (Throw error, w)).
Proof.
  destruct (exactAlias platform moduleName) as [[redirected|]|error] eqn:Hexact.
  - left. exists redirected. intros w. by apply moduleIdAliases_exact.
  - right. left. intros w. by apply moduleIdAliases_universal.
  - right. right. exists error. intros w. by apply moduleIdAliases_throws.
Qed.




End Aliases.



(** ** The strict-version redirector *)

Lemma prefix_empty (s : string) : String.prefix "" s = true.
Proof. by destruct s. Qed.

Lemma prefix_append_l (a b s : string) :
  String.prefix (a +:+ b) s = true → String.prefix a s = true.
Proof.
  revert s. induction a as [|c a IH]; intros s; [intros _; apply prefix_empty|].
  destruct s as [|d s]; simpl; [done|].
  destruct (ascii_dec c d); [apply IH|done].
Qed.

(** A replacement text without [$] stands for itself. *)
Lemma getSubstitution_plain (matched before after tpl : string) :
  Js.includes tpl "$" = false → Js.getSubstitution matched before after tpl = tpl.
Proof.
  induction tpl as [|c t IH]; [done|].
  intros Hplain. simpl in Hplain. apply orb_false_iff in Hplain as [Hhead Htail].
  simpl. destruct (Ascii.eqb_spec c "$") as [->|Hc].
  - simpl in Hhead. by rewrite prefix_empty in Hhead.
  - by rewrite IH.
Qed.

(** On an import of React Native, and with a canonical path free of [$],
    the redirected specifier is the canonical path followed by what the
    import has after the package name. *)
Lemma replace_react_native (root moduleName : string) :
  isReactNativeImport moduleName = true →
  Js.includes root "$" = false →
  Js.replace moduleName "react-native" root
  = root +:+ Js.drop (String.length "react-native") moduleName.
Proof.
  intros Himport Hplain.
  assert (Hprefix : String.prefix "react-native" moduleName = true).
  { unfold isReactNativeImport in Himport. apply orb_true_iff in Himport as [Heq|Hsub].
    - apply String.eqb_eq in Heq as ->. reflexivity.
    - by apply (prefix_append_l "react-native" "/"). }
  unfold Js.replace.
  destruct moduleName as [|c rest]; [done|].
  unfold Js.findFirst; fold Js.findFirst. rewrite Hprefix.
  by rewrite getSubstitution_plain.
Qed.

Section StrictVersion.
Context `{H : Host}.
Variable config : Config.
Variable options : ExtendedResolverOptions.

(** The redirector, switched on. *)
Local Notation strictStage :=
  (createReactNativeStrictVersionResolver config options (Some true)).

(** The run of the redirector, switched on, spelled out. *)
Lemma strict_version_run (context : ResolutionContext) (moduleName : string)
    (platform : option string) (w : World) :
  strictStage context moduleName platform w
  = if negb (isReactNativeImport moduleName) then (Return None, w)
    else match getStrictResolver options context platform moduleName with
         | Throw e => (Throw e, w)
         | Return (SourceFile filePath fields) =>
             if Js.startsWith filePath (reactNativePath config)
             then (Return (Some (SourceFile filePath fields)), w)
             else match redirectModulePath context
                          (Js.replace moduleName "react-native" (reactNativePath config)) with
                  | None => (Return None, w)
                  | Some redirectPath =>
                      match getStrictResolver options context platform redirectPath with
                      | Throw e => (Throw e, w)
                      | Return redirected =>
                          (Return (Some redirected),
                           if warnedMultipleReactNativeVersions w then w
                           else logWarn (multipleVersionsWarning config)
                                  (set_warnedMultipleReactNativeVersions w))
                      end
                  end
         | Return r => (Return (Some r), w)
         end.
Proof.
  unfold createReactNativeStrictVersionResolver, isReactNativeImport.
  cbn [default from_option id negb orb].
  destruct (negb _); [reflexivity|].
  unfold bind at 1. unfold call at 1.
  destruct (getStrictResolver options context platform moduleName) as [[filePath fields| |]|e];
    try reflexivity.
  destruct (Js.startsWith filePath (reactNativePath config)); [reflexivity|].
  destruct (redirectModulePath context _) as [redirectPath|]; [|reflexivity].
  unfold bind at 1. unfold call at 1.
  destruct (getStrictResolver options context platform redirectPath) as [redirected|e];
    [|reflexivity].
  unfold bind, gets, modify, ret.
  by destruct (warnedMultipleReactNativeVersions w).
Qed.

(** What one request does to the log and to the flag. *)
Lemma strict_version_step (w : World) (r : Request) :
  warnings (serveOne strictStage w r)
  = warnings w ++ (if negb (warnedMultipleReactNativeVersions w) && redirects config options r
                   then [multipleVersionsWarning config] else [])
  ∧ warnedMultipleReactNativeVersions (serveOne strictStage w r)
    = warnedMultipleReactNativeVersions w || redirects config options r.
Proof.
  destruct r as [context moduleName platform].
  unfold serveOne, redirects.
  cbn [requestContext requestModuleName requestPlatform].
  rewrite strict_version_run.
  destruct (isReactNativeImport moduleName),
    (getStrictResolver options context platform moduleName) as [[filePath fields| |]|e],
    (warnedMultipleReactNativeVersions w) eqn:Hwarned;
    cbn [negb andb orb snd]; rewrite ?app_nil_r; try done.
  all: destruct (Js.startsWith filePath (reactNativePath config));
    cbn [negb andb orb snd]; rewrite ?app_nil_r; try done.
  all: destruct (redirectModulePath context _) as [redirectPath|];
    cbn [negb andb orb snd]; rewrite ?app_nil_r; try done.
  all: destruct (getStrictResolver options context platform redirectPath);
    cbn [negb andb orb snd]; rewrite ?app_nil_r; done.
Qed.

(** Over any list of requests, the log grows by the warning when some
    request is redirected and the warning was not out yet, and by nothing
    otherwise. *)
Lemma strict_version_serve (requests : list Request) (w : World) :
  warnings (serve strictStage requests w)
  = warnings w ++ (if negb (warnedMultipleReactNativeVersions w)
                      && existsb (redirects config options) requests
                   then [multipleVersionsWarning config] else []).
Proof.
  revert w. induction requests as [|r requests IH]; intros w.
  - simpl. by rewrite andb_false_r, app_nil_r.
  - unfold serve. simpl. fold (serve strictStage requests (serveOne strictStage w r)).
    rewrite IH. destruct (strict_version_step w r) as [-> ->].
    rewrite <- app_assoc. f_equal.
    destruct (warnedMultipleReactNativeVersions w), (redirects config options r);
      reflexivity.
Qed.

(** X19. With the redirector on, an import of React Native that resolves
    to a source file whose path does not start with the canonical path is
    resolved again at the path [redirectModulePath] gives for the import
    moved under the canonical path, and the outcome of that resolution is
    the outcome of the stage; when [redirectModulePath] answers [false]
    the stage answers [null] and leaves the world alone; and over any
    requests served by one instance, from a world in which the warning is
    not out, the warning is written once when a request is redirected and
    never otherwise. The import moved under the canonical path is the
    canonical path and the rest of the import when the path holds no [$]. *)
Theorem strict_version_redirects :
  (∀ context moduleName platform filePath fields w,
     isReactNativeImport moduleName = true →
     getStrictResolver options context platform moduleName
     = Return (SourceFile filePath fields) →
     Js.startsWith filePath (reactNativePath config) = false →
     match redirectModulePath context
             (Js.replace moduleName "react-native" (reactNativePath config)) with
     | Some redirectPath =>
         fst (createReactNativeStrictVersionResolver config options (Some true)
                context moduleName platform w)
         = strictly (getStrictResolver options context platform redirectPath)
     | None =>
         createReactNativeStrictVersionResolver config options (Some true)
           context moduleName platform w
         = (Return None, w)
     end)
  ∧ (∀ moduleName,
       isReactNativeImport moduleName = true →
       Js.includes (reactNativePath config) "$" = false →
       Js.replace moduleName "react-native" (reactNativePath config)
       = reactNativePath config +:+ Js.drop (String.length "react-native") moduleName)
  ∧ (∀ requests w,
       warnedMultipleReactNativeVersions w = false →
       warnings (serve (createReactNativeStrictVersionResolver config options (Some true))
                   requests w)
       = warnings w ++ (if existsb (redirects config options) requests
                        then [multipleVersionsWarning config] else [])).
Proof.
  split; [|split].
  - intros context moduleName platform filePath fields w Himport Hresolved Houtside.
    pose proof (strict_version_run context moduleName platform w) as Hrun.
    rewrite Hrun, Himport, Hresolved, Houtside.
    cbn [negb].
    destruct (redirectModulePath context _) as [redirectPath|]; [|reflexivity].
    by destruct (getStrictResolver options context platform redirectPath).
  - intros moduleName. apply replace_react_native.
  - intros requests w Hfresh.
    pose proof (strict_version_serve requests w) as Hserve.
    rewrite Hserve, Hfresh. reflexivity.
Qed.
End StrictVersion.

(** The redirector on the demo project, whose workspace package carries a
    second copy of React Native: the import is resolved under the project's
    copy, and three requests, two of them redirected, leave one warning. *)
Lemma strict_version_redirects_witness :
  fst (createReactNativeStrictVersionResolver (H := Demo.host) Demo.config Demo.strictOptions
         (Some true) (Demo.context None true false) "react-native" (Some "ios") Demo.world)
  = Return (Some (SourceFile "/app/node_modules/react-native/index.js" []))
  ∧ warnings
      (serve (createReactNativeStrictVersionResolver (H := Demo.host) Demo.config
                Demo.strictOptions (Some true))
         [{| requestContext := Demo.context None true false;
             requestModuleName := "react-native";
             requestPlatform := Some "ios" |};
          {| requestContext := Demo.context None true false;
             requestModuleName := "./App";
             requestPlatform := Some "ios" |};
          {| requestContext := Demo.context None true false;
             requestModuleName := "react-native/Libraries/Core/InitializeCore";
             requestPlatform := Some "android" |}]
         Demo.world)
    = ["Multiple React Native versions detected, resolving only: /app/node_modules/react-native"].
Proof.
  destruct (strict_version_redirects (H := Demo.host) Demo.config Demo.strictOptions)
    as (Hredirect & _ & Honce).
  split.
  - exact (Hredirect (Demo.context None true false) "react-native" (Some "ios")
             "/app/packages/ui/node_modules/react-native/index.js" [] Demo.world
             eq_refl eq_refl eq_refl).
  - exact (Honce _ Demo.world eq_refl).
Defined.

(** C6. The stage misses what the claim says, on the demo project with the
    redirector on. The canonical directory is
    [/app/node_modules/react-native]. The import
    [react-native/Libraries/Utilities/Platform] resolves to a source file of
    the copy of React Native inside [react-native-reanimated], which is
    outside the canonical directory, and the canonical copy has the file.
    Yet the stage answers the file of the other copy and writes no warning:
    the path of that file starts with the text of the canonical path. And
    for a project under [/home/me/$&app] the import moved under the
    canonical path is not under it, the [$&] being replaced. *)
Theorem strict_version_misses_sibling_copy :
  reactNativePath (H := Demo.host) Demo.config = "/app/node_modules/react-native"
  ∧ isReactNativeImport "react-native/Libraries/Utilities/Platform" = true
  ∧ getStrictResolver (H := Demo.host) Demo.strictOptions (Demo.context None true false)
      (Some "ios") "react-native/Libraries/Utilities/Platform"
    = Return (SourceFile
                "/app/node_modules/react-native-reanimated/node_modules/react-native/Libraries/Utilities/Platform.js"
                [])
  ∧ insideDirectory (reactNativePath (H := Demo.host) Demo.config)
      "/app/node_modules/react-native-reanimated/node_modules/react-native/Libraries/Utilities/Platform.js"
    = false
  ∧ getStrictResolver (H := Demo.host) Demo.strictOptions (Demo.context None true false)
      (Some "ios")
      (Js.replace "react-native/Libraries/Utilities/Platform" "react-native"
         (reactNativePath (H := Demo.host) Demo.config))
    = Return (SourceFile "/app/node_modules/react-native/Libraries/Utilities/Platform.js" [])
  ∧ createReactNativeStrictVersionResolver (H := Demo.host) Demo.config Demo.strictOptions
      (Some true) (Demo.context None true false)
      "react-native/Libraries/Utilities/Platform" (Some "ios") Demo.world
    = (Return (Some (SourceFile
                       "/app/node_modules/react-native-reanimated/node_modules/react-native/Libraries/Utilities/Platform.js"
                       [])),
       Demo.world)
  ∧ (let elsewhere :=
       {| projectRoot := "/home/me/$&app";
          transformer_assetRegistryPath := None;
          serializer_getPolyfills := None |} in
     reactNativePath (H := Demo.host) elsewhere = "/home/me/$&app/node_modules/react-native"
     ∧ Js.replace "react-native/index" "react-native" (reactNativePath (H := Demo.host) elsewhere)
       = "/home/me/react-nativeapp/node_modules/react-native/index"
     ∧ insideDirectory (reactNativePath (H := Demo.host) elsewhere)
         (Js.replace "react-native/index" "react-native"
            (reactNativePath (H := Demo.host) elsewhere))
       = false).
Proof. repeat split; vm_compute; reflexivity. Qed.

(** ** The post-resolution rewrites *)

Section Rewrites.
Context `{H : Host}.
Variable config : Config.
Variable options : ExtendedResolverOptions.

(** C8. The post-resolution stage keeps the discriminant of the strict
    resolution it wraps. On the asset registry of react-native-web on [web]
    it answers a [sourceFile]. Everywhere else: a throw of the strict
    resolution is thrown on; a result that is not a [sourceFile] is answered
    as it is, the world untouched; and a [sourceFile] is answered as a
    [sourceFile] with the same further fields, at the same path, or on [web]
    at the virtual identifier of its shim, or off [web] at its canary file. *)
Theorem postResolutionRewrites_keeps_type
    (context : ResolutionContext) (moduleName : string) (platform : option string)
    (w : World) :
  (isAssetRegistryRequest context moduleName platform = true →
     ∃ filePath w',
       postResolutionRewrites config options context moduleName platform w
       = (Return (Some (SourceFile filePath [])), w'))
  ∧ (isAssetRegistryRequest context moduleName platform = false →
     (∀ error,
        getStrictResolver options context platform moduleName = Throw error →
        postResolutionRewrites config options context moduleName platform w
        = (Throw error, w))
     ∧ (∀ result,
          getStrictResolver options context platform moduleName = Return result →
          resolutionType result ≠ "sourceFile" →
          postResolutionRewrites config options context moduleName platform w
          = (Return (Some result), w))
     ∧ (∀ filePath fields,
          getStrictResolver options context platform moduleName
          = Return (SourceFile filePath fields) →
          ∃ filePath' w',
            postResolutionRewrites config options context moduleName platform w
            = (Return (Some (SourceFile filePath' fields)), w')
            ∧ resolutionType (SourceFile filePath' fields)
              = resolutionType (SourceFile filePath fields)
            ∧ (filePath' = filePath
               ∨ (platform = Some "web" ∧ filePath' = shimVirtualId filePath)
               ∨ (platform ≠ Some "web"
                  ∧ shouldCreateVirtualCanary (normalName filePath) = Some filePath')))).
Proof.
  unfold isAssetRegistryRequest, postResolutionRewrites. split.
  - intros ->. unfold bind, getAssetRegistryPath, ret.
    destruct (_assetRegistryPath w) as [p|]; [destruct (Js.truthy p)|]; eauto.
  - intros ->. split; [|split].
    + intros error Hthrow. unfold bind, call. by rewrite Hthrow.
    + intros result Hresult Htype. unfold bind, call. rewrite Hresult.
      destruct result; [by destruct Htype|reflexivity|reflexivity].
    + intros filePath fields Hresult. unfold bind at 1. unfold call at 1. rewrite Hresult.
      destruct (bool_decide (platform = Some "web")) eqn:Hweb.
      * apply bool_decide_eq_true in Hweb.
        destruct (Js.includes filePath "node_modules"); [|by eauto 8].
        destruct (shouldCreateVirtualShim (normalName filePath)) as [shimFile|];
          [|by eauto 8].
        destruct (Js.truthy shimFile); [|by eauto 8].
        unfold bind, gets, modify, ret.
        destruct (negb _); do 2 eexists; (split; [reflexivity|]); split; try done;
          right; left; done.
      * apply bool_decide_eq_false in Hweb.
        destruct (enabledOption (isReactCanaryEnabled options)
                  && Js.includes filePath "node_modules"); [|by eauto 8].
        destruct (shouldCreateVirtualCanary (normalName filePath)) as [canaryFile|] eqn:Hcanary;
          [|by eauto 8].
        destruct (Js.truthy canaryFile); [|by eauto 8].
        do 2 eexists. split; [reflexivity|]. split; [done|]. right; right. done.
Qed.
End Rewrites.

(** The stage on the demo project: on [web], the entry file of
    react-native-web has a shim and is answered as a [sourceFile] still. *)
Lemma postResolutionRewrites_keeps_type_witness :
  ∃ filePath' w',
    postResolutionRewrites (H := Demo.host) Demo.config Demo.options
      (Demo.context None true false) "react-native-web" (Some "web") Demo.world
    = (Return (Some (SourceFile filePath' [])), w').
Proof.
  destruct (postResolutionRewrites_keeps_type (H := Demo.host) Demo.config Demo.options
              (Demo.context None true false) "react-native-web" (Some "web") Demo.world)
    as [_ Hwraps].
  destruct (Hwraps eq_refl) as (_ & _ & Hsource).
  destruct (Hsource "/app/node_modules/react-native-web/dist/index.js" [] eq_refl)
    as (filePath' & w' & Hrun & _).
  exists filePath', w'. exact Hrun.
Defined.

(** ** Virtual identifiers *)






Section VirtualIds.
Context `{H : Host}.
Variable config : Config.
Variable options : ExtendedResolverOptions.
















End VirtualIds.






(** * Further properties *)

(** ** [getNodejsExtensions] as a whole *)

Lemma filter_partition_perm {A} (f : A → bool) (l : list A) :
  List.filter f l ++ List.filter (fun x => negb (f x)) l ≡ₚ l.
Proof.
  induction l as [|x l IH]; simpl; [done|].
  destruct (f x); simpl.
  - by rewrite IH.
  - rewrite <- Permutation_middle. by rewrite IH.
Qed.

(** X1. The reordering loses and adds nothing. *)
Theorem getNodejsExtensions_permutation (srcExts : list string) :
  getNodejsExtensions srcExts ≡ₚ srcExts
  ∧ length (getNodejsExtensions srcExts) = length srcExts.
Proof.
  assert (Hperm : getNodejsExtensions srcExts ≡ₚ srcExts).
  { unfold getNodejsExtensions, spliceInsert. set (k := Z.to_nat _).
    rewrite (Permutation_app_comm (List.filter isMjs srcExts)), app_assoc, take_drop.
    rewrite Permutation_app_comm. apply filter_partition_perm. }
  split; [exact Hperm|]. by rewrite Hperm.
Qed.

(** X2. Reordering an order already computed changes nothing. *)
Theorem getNodejsExtensions_idempotent (srcExts : list string) :
  getNodejsExtensions (getNodejsExtensions srcExts) = getNodejsExtensions srcExts.
Proof.
  unfold getNodejsExtensions at 1.
  rewrite getNodejsExtensions_keeps_others, getNodejsExtensions_keeps_mjs.
  reflexivity.
Qed.

Lemma filter_all {A} (f : A → bool) (l : list A) :
  Forall (fun x => f x = true) l → List.filter f l = l.
Proof.
  induction 1 as [|x l Hx _ IH]; simpl; [done|]. by rewrite Hx, IH.
Qed.

Lemma filter_none {A} (f : A → bool) (l : list A) :
  Forall (fun x => f x = false) l → List.filter f l = [].
Proof.
  induction 1 as [|x l Hx _ IH]; simpl; [done|]. by rewrite Hx.
Qed.

(** X4. A list without [mjs] extensions comes back as it is. *)
Theorem getNodejsExtensions_without_mjs (srcExts : list string) :
  Forall (fun ext => isMjs ext = false) srcExts →
  getNodejsExtensions srcExts = srcExts.
Proof.
  intros Hnone. unfold getNodejsExtensions, spliceInsert. set (k := Z.to_nat _).
  rewrite (filter_none isMjs) by done. simpl.
  rewrite take_drop. apply filter_all.
  eapply Forall_impl; [exact Hnone|]. intros ext ->. reflexivity.
Qed.

Lemma getNodejsExtensions_without_mjs_witness :
  Forall (fun ext => isMjs ext = false) ["ts"; "tsx"; "js"; "jsx"; "json"]
  ∧ getNodejsExtensions ["ts"; "tsx"; "js"; "jsx"; "json"] = ["ts"; "tsx"; "js"; "jsx"; "json"].
Proof.
  assert (Hnone : Forall (fun ext => isMjs ext = false) ["ts"; "tsx"; "js"; "jsx"; "json"])
    by (repeat constructor).
  split; [exact Hnone|]. exact (getNodejsExtensions_without_mjs _ Hnone).
Defined.

(** Where the scan for the last [js] or [jsx] extension ends: at the start
    value when there is none, and otherwise at the position of one that no
    other follows. *)
Lemma lastJsIndex_spec (exts : list string) (i index : Z) :
  (lastJsIndex i index exts = index ∧ Forall (fun ext => isJsOrJsx ext = false) exts)
  ∨ ∃ n ext,
      lastJsIndex i index exts = (i + Z.of_nat n)%Z
      ∧ exts !! n = Some ext
      ∧ isJsOrJsx ext = true
      ∧ Forall (fun ext => isJsOrJsx ext = false) (List.skipn (S n) exts).
Proof.
  revert i index. induction exts as [|ext rest IH]; intros i index; simpl.
  - left. by split.
  - destruct (IH (i + 1)%Z (if isJsOrJsx ext then i else index))
      as [[Hsame Hnone]|(n & ext' & Hlast & Hlookup & Hjs & Hafter)].
    + destruct (isJsOrJsx ext) eqn:Hext.
      * right. exists 0%nat, ext. rewrite Hsame. repeat split; [lia|done|done].
      * left. split; [done|]. by constructor.
    + right. exists (S n), ext'. rewrite Hlast. repeat split; [lia|done|done|done].
Qed.

(** X3. The [mjs] extensions are put as one block right behind the last [js] or
    [jsx] extension among the others, and at the front when there is none:
    what precedes the block is empty or ends in a [js] or [jsx] extension,
    and nothing behind the block is one. *)
Theorem getNodejsExtensions_after_last_js (srcExts : list string) :
  ∃ before after : list string,
    getNodejsExtensions srcExts = before ++ List.filter isMjs srcExts ++ after
    ∧ before ++ after = List.filter (fun ext => negb (isMjs ext)) srcExts
    ∧ Forall (fun ext => isJsOrJsx ext = false) after
    ∧ (before = [] ∨ ∃ init ext, before = init ++ [ext] ∧ isJsOrJsx ext = true).
Proof.
  unfold getNodejsExtensions, spliceInsert.
  set (others := List.filter (fun ext => negb (isMjs ext)) srcExts).
  destruct (lastJsIndex_spec others 0 (-1))
    as [[-> Hnone]|(n & ext & -> & Hlookup & Hjs & Hafter)].
  - replace (Z.to_nat _) with 0%nat by (simpl; lia).
    exists [], others. simpl. repeat split; [done|by left].
  - pose proof (lookup_lt_Some _ _ _ Hlookup) as Hlt.
    replace (Z.to_nat _) with (S n).
    2:{ destruct (0 + Z.of_nat n + 1 <? 0)%Z eqn:Hneg; [lia|].
        rewrite Z.min_l by lia. lia. }
    exists (take (S n) others), (List.skipn (S n) others).
    repeat split; [apply take_drop|done|].
    right. exists (take n others), ext. split; [|done].
    by erewrite take_S_r.
Qed.

(** ** Strings: what the tests of the module mean *)

Lemma append_nil (s : string) : "" +:+ s = s.
Proof. reflexivity. Qed.

Lemma append_cons (c : ascii) (a b : string) : String c a +:+ b = String c (a +:+ b).
Proof. reflexivity. Qed.

Lemma append_assoc (a b c : string) : (a +:+ b) +:+ c = a +:+ b +:+ c.
Proof.
  induction a as [|x a IH]; [done|]. by rewrite !append_cons, IH.
Qed.

Lemma append_empty_r (a : string) : a +:+ "" = a.
Proof. induction a as [|x a IH]; [done|]. by rewrite append_cons, IH. Qed.

Lemma prefix_split (p s : string) :
  String.prefix p s = true → s = p +:+ Js.drop (String.length p) s.
Proof.
  revert s. induction p as [|c p IH]; intros s; [by destruct s|].
  destruct s as [|d s]; simpl; [done|].
  destruct (ascii_dec c d) as [->|]; [|done].
  intros Hp. by rewrite append_cons, <- IH.
Qed.

Lemma prefix_append (p rest : string) : String.prefix p (p +:+ rest) = true.
Proof.
  induction p as [|c p IH]; [apply prefix_empty|].
  rewrite append_cons. simpl. by destruct (ascii_dec c c).
Qed.

Lemma prefix_length (p s : string) :
  String.prefix p s = true → (String.length p <= String.length s)%nat.
Proof.
  revert s. induction p as [|c p IH]; intros s; [simpl; lia|].
  destruct s as [|d s]; simpl; [done|]. destruct (ascii_dec c d); [|done].
  intros Hp. apply IH in Hp. lia.
Qed.

Lemma endsWith_spec (s suf : string) :
  Js.endsWith s suf = true ↔ ∃ pre, s = pre +:+ suf.
Proof.
  split.
  - induction s as [|c s IH]; cbn [Js.endsWith].
    + rewrite orb_false_r. intros Heq%String.eqb_eq. by exists "".
    + intros [Heq%String.eqb_eq|Hs]%orb_true_iff; [by exists ""|].
      destruct (IH Hs) as [pre ->]. by exists (String c pre).
  - intros [pre ->]. induction pre as [|c pre IH].
    + rewrite append_nil. destruct suf; cbn [Js.endsWith]; by rewrite String.eqb_refl.
    + rewrite append_cons. cbn [Js.endsWith]. rewrite IH. apply orb_true_r.
Qed.

Lemma includes_spec (s sub : string) :
  Js.includes s sub = true ↔ ∃ pre post, s = pre +:+ sub +:+ post.
Proof.
  split.
  - induction s as [|c s IH]; cbn [Js.includes].
    + rewrite orb_false_r. intros Hp. exists "", (Js.drop (String.length sub) "").
      by apply prefix_split.
    + intros [Hp|Hs]%orb_true_iff.
      * exists "", (Js.drop (String.length sub) (String c s)). by apply prefix_split.
      * destruct (IH Hs) as (pre & post & ->). by exists (String c pre), post.
  - intros (pre & post & ->). induction pre as [|c pre IH].
    + rewrite append_nil. pose proof (prefix_append sub post) as Hp.
      destruct (sub +:+ post); cbn [Js.includes]; by rewrite Hp.
    + rewrite append_cons. cbn [Js.includes]. rewrite IH. apply orb_true_r.
Qed.

Lemma includes_drop (s sub : string) (k : nat) :
  Js.includes s sub = false → Js.includes (Js.drop k s) sub = false.
Proof.
  revert s. induction k as [|k IH]; intros s Hs; [done|].
  destruct s as [|c s]; [done|]. cbn [Js.drop]. apply IH.
  cbn [Js.includes] in Hs. by apply orb_false_iff in Hs as [_ ?].
Qed.

(** X5. [isDirectoryIn] is the test for a string prefix, no more: it holds
    exactly of the targets that extend the root by any text at all. *)
Theorem isDirectoryIn_is_prefix (targetPath rootPath : string) :
  isDirectoryIn targetPath rootPath = true ↔ ∃ rest, targetPath = rootPath +:+ rest.
Proof.
  unfold isDirectoryIn, Js.startsWith. split.
  - intros [Hp _]%andb_true_iff. eexists. by apply prefix_split.
  - intros [rest ->]. rewrite prefix_append. simpl.
    apply Nat.leb_le. apply prefix_length, prefix_append.
Qed.

Lemma mapChars_append (f : ascii → ascii) (a b : string) :
  Js.mapChars f (a +:+ b) = Js.mapChars f a +:+ Js.mapChars f b.
Proof. induction a as [|c a IH]; [done|]. rewrite !append_cons. simpl. by rewrite IH. Qed.

Lemma normalizeSlashes_idempotent (p : string) :
  normalizeSlashes (normalizeSlashes p) = normalizeSlashes p.
Proof.
  unfold normalizeSlashes. induction p as [|c p IH]; simpl; [done|].
  rewrite IH. f_equal.
  destruct (Ascii.eqb c Js.backslash) eqn:Hc; [reflexivity|by rewrite Hc].
Qed.

(** X6. [shouldAliasModule] holds exactly of a [sourceFile] on the platform of
    the alias whose path, with its backslashes turned into slashes, ends in
    the output of the alias; so it makes no difference between a path and
    its form with slashes. *)
Theorem shouldAliasModule_spec (inputPlatform : option string) (result : Resolution)
    (aliasPlatform aliasOutput : string) :
  (shouldAliasModule inputPlatform result aliasPlatform aliasOutput = true
   ↔ inputPlatform = Some aliasPlatform
     ∧ ∃ filePath fields pre,
         result = SourceFile filePath fields
         ∧ normalizeSlashes filePath = pre +:+ aliasOutput)
  ∧ (∀ filePath fields,
       result = SourceFile filePath fields →
       shouldAliasModule inputPlatform (SourceFile (normalizeSlashes filePath) fields)
         aliasPlatform aliasOutput
       = shouldAliasModule inputPlatform result aliasPlatform aliasOutput).
Proof.
  split.
  - unfold shouldAliasModule. rewrite andb_true_iff, bool_decide_eq_true. split.
    + intros [Hplatform Hends]. split; [done|].
      destruct result as [filePath fields| |]; try done.
      apply endsWith_spec in Hends as [pre Hpre]. by exists filePath, fields, pre.
    + intros [Hplatform (filePath & fields & pre & -> & Hpre)]. split; [done|].
      apply endsWith_spec. by exists pre.
  - intros filePath fields ->. unfold shouldAliasModule.
    by rewrite normalizeSlashes_idempotent.
Qed.

(** ** Paths relative to [node_modules] *)

Lemma takeLine_cons (c : ascii) (s : string) :
  Js.takeLine (String c s) = String c s →
  Js.isLineTerminator c = false ∧ Js.takeLine s = s.
Proof.
  cbn [Js.takeLine]. destruct (Js.isLineTerminator c); [done|].
  by intros [= ->].
Qed.

Lemma dropThrough_one_line (needle s : string) :
  Js.takeLine s = s → Js.dropThrough needle false s = s.
Proof.
  induction s as [|c s IH]; [done|].
  intros [Hc Hs]%takeLine_cons. cbn [Js.dropThrough]. by rewrite Hc, IH.
Qed.

(** On one line, the scan finds the text behind the last occurrence of the
    needle, or there is no occurrence. *)
Lemma afterLastInLine_spec (needle s : string) :
  needle ≠ "" → Js.takeLine s = s →
  match Js.afterLastInLine needle s with
  | Some r => (∃ pre, s = pre +:+ needle +:+ r) ∧ Js.includes r needle = false
  | None => Js.includes s needle = false
  end.
Proof.
  intros Hneedle. induction s as [|c s IH].
  - intros _. cbn [Js.afterLastInLine Js.includes]. by destruct needle.
  - intros [Hc Hs]%takeLine_cons. cbn [Js.afterLastInLine]. rewrite Hc.
    specialize (IH Hs).
    destruct (Js.afterLastInLine needle s) as [r|].
    + destruct IH as [[pre ->] Hr]. split; [|done]. by exists (String c pre).
    + destruct (String.prefix needle (String c s)) eqn:Hp.
      * split; [exists ""; by apply prefix_split|].
        destruct needle as [|d needle]; [done|].
        cbn [String.length Js.drop]. by apply includes_drop.
      * cbn [Js.includes]. by rewrite Hp, IH.
Qed.

Lemma takeLine_normalizeSlashes (p : string) :
  Js.takeLine p = p → Js.takeLine (normalizeSlashes p) = normalizeSlashes p.
Proof.
  unfold normalizeSlashes. induction p as [|c p IH]; [done|].
  intros [Hc Hp]%takeLine_cons. cbn [Js.mapChars Js.takeLine].
  rewrite (IH Hp).
  destruct (Ascii.eqb c Js.backslash); [reflexivity|by rewrite Hc].
Qed.

(** X7. The name under which a shim or a canary file is looked up: for a path
    on one line, what follows the last [node_modules/] of the path with its
    backslashes turned into slashes, so that the innermost dependency folder
    counts; and the whole path when it has no [node_modules/]. *)
Theorem normalName_innermost (filePath : string) :
  oneLine filePath = true →
  ((∃ pre, normalizeSlashes filePath = pre +:+ "node_modules/" +:+ normalName filePath)
   ∧ Js.includes (normalName filePath) "node_modules/" = false)
  ∨ (Js.includes (normalizeSlashes filePath) "node_modules/" = false
     ∧ normalName filePath = normalizeSlashes filePath).
Proof.
  intros Hline%String.eqb_eq. apply takeLine_normalizeSlashes in Hline.
  unfold normalName. set (p := normalizeSlashes filePath) in *.
  pose proof (afterLastInLine_spec "node_modules/" p) as Hspec.
  destruct p as [|c p]; [by right|].
  cbn [Js.dropThrough].
  destruct (Js.afterLastInLine "node_modules/" (String c p)) as [r|].
  - left. by apply Hspec.
  - right. split; [by apply Hspec|].
    apply takeLine_cons in Hline as [Hc Hp]. by rewrite Hc, dropThrough_one_line.
Qed.

Lemma normalName_innermost_witness :
  oneLine "C:\app\node_modules\a\node_modules\b\index.js" = true
  ∧ normalName "C:\app\node_modules\a\node_modules\b\index.js" = "b/index.js".
Proof.
  split; [reflexivity|].
  destruct (normalName_innermost "C:\app\node_modules\a\node_modules\b\index.js" eq_refl)
    as [_|[Hnone _]]; [reflexivity|discriminate Hnone].
Defined.

(** ** More on the alias stage *)

Section MoreAliases.
Context `{H : Host}.
Variable config : Config.
Variable options : ExtendedResolverOptions.

Lemma firstUniversalAlias_no_match
    (universal : list UniversalAlias) (context : ResolutionContext) (moduleName : string)
    (platform : option string) (w : World) :
  Forall (fun entry : UniversalAlias => fst entry moduleName = None) universal →
  firstUniversalAlias options universal context moduleName platform w = (Return None, w).
Proof.
  induction 1 as [|[matcher alias] rest Hhead _ IH]; [done|].
  cbn [firstUniversalAlias]. simpl in Hhead. by rewrite Hhead.
Qed.

Lemma exactAlias_web_only (platform : option string) (moduleName : string) :
  platform ≠ Some "web" → readsBuiltin platform moduleName = false →
  exactAlias platform moduleName = Return None.
Proof.
  intros Hplatform Hbuiltin. unfold exactAlias. destruct platform as [p|]; [|done].
  destruct (Js.truthy p); [|done]. cbn [aliases List.find fst snd].
  destruct (String.eqb_spec "web" p) as [<-|]; [done|].
  cbn [readsBuiltin] in Hbuiltin.
  destruct (inObjectPrototype p); [|reflexivity].
  cbn [andb] in Hbuiltin. unfold inheritedAlias. by rewrite Hbuiltin.
Qed.

Lemma exactAlias_not_vector_icons (platform : option string) (rest : string) :
  exactAlias platform ("react-native-vector-icons" +:+ rest) = Return None.
Proof.
  unfold exactAlias. destruct platform as [p|]; [|done].
  destruct (Js.truthy p); [|done]. cbn [aliases List.find fst snd].
  destruct (String.eqb "web" p); [reflexivity|].
  destruct (inObjectPrototype p); reflexivity.
Qed.

(** X8. The exact aliases are aliases of [web]. On every other platform,
    unless the platform names a member of [Object.prototype] and the
    specifier can name a property of a built-in object, the exact lookup
    yields nothing: the alias stage fires through a universal alias or not at
    all, and when no universal alias matches it answers [null] and writes
    nothing but the list of universal aliases it computed. *)
Theorem moduleIdAliases_off_web
    (context : ResolutionContext) (moduleName : string) (platform : option string)
    (w : World) (universal : list UniversalAlias) :
  platform ≠ Some "web" →
  readsBuiltin platform moduleName = false →
  fst (getUniversalAliases config w) = Return universal →
  Forall (fun entry : UniversalAlias => fst entry moduleName = None) universal →
  exactAlias platform moduleName = Return None
  ∧ moduleIdAliases config options context moduleName platform w
    = (Return None, snd (getUniversalAliases config w)).
Proof.
  intros Hplatform Hbuiltin Hlist Hnone.
  pose proof (exactAlias_web_only platform moduleName Hplatform Hbuiltin) as Hexact.
  split; [exact Hexact|].
  rewrite (moduleIdAliases_universal config options _ _ _ _ Hexact). unfold bind at 1.
  destruct (getUniversalAliases config w) as [[l|e] w'] eqn:Hget; simpl in Hlist;
    [|discriminate].
  injection Hlist as ->. by apply firstUniversalAlias_no_match.
Qed.

(** X20. The exact lookup reads through the prototype chain. On [web] a
    specifier that names a member of [Object.prototype] fires the alias, and
    the strict resolver is handed the member, a value that is no string. On a
    platform that names a member of [Object.prototype] the lookup reads a
    property of that member: a string that is not empty is resolved as the
    replacement, a falsy value leaves the request to the universal aliases. *)
Theorem moduleIdAliases_through_prototype
    (context : ResolutionContext) (moduleName : string) (w : World) :
  (inObjectPrototype moduleName = true →
   moduleIdAliases config options context moduleName (Some "web") w
   = (strictly (getStrictResolver options context (Some "web") (Inherited "web" moduleName)),
      w))
  ∧ (∀ member redirected,
       inObjectPrototype member = true →
       isBuiltinKey moduleName = true →
       builtinProperty member moduleName = Return (StringValue redirected) →
       Js.truthy redirected = true →
       moduleIdAliases config options context moduleName (Some member) w
       = (strictly (getStrictResolver options context (Some member) redirected), w))
  ∧ (∀ member,
       inObjectPrototype member = true →
       isBuiltinKey moduleName = true →
       builtinProperty member moduleName = Return (OtherValue false) →
       exactAlias (Some member) moduleName = Return None).
Proof.
  assert (Hmember : ∀ member,
    inObjectPrototype member = true →
    exactAlias (Some member) moduleName = inheritedAlias member moduleName).
  { intros member Hin. unfold exactAlias.
    assert (Js.truthy member = true) as ->.
    { destruct member; [discriminate Hin|reflexivity]. }
    cbn [aliases List.find fst snd].
    destruct (String.eqb_spec "web" member) as [<-|_]; [discriminate Hin|].
    by rewrite Hin. }
  split; [|split].
  - intros Hin. apply moduleIdAliases_exact.
    unfold exactAlias. cbn [aliases List.find fst snd Js.truthy].
    change (String.eqb "web" "web") with true. cbv beta iota.
    assert (List.find (fun entry : string * string => String.eqb (fst entry) moduleName)
              [("react-native", "react-native-web");
               ("react-native/index", "react-native-web");
               ("react-native/Libraries/Image/resolveAssetSource",
                "expo-asset/build/resolveAssetSource")] = None) as ->.
    { destruct (List.find _ _) as [[name target]|] eqn:Hfind; [|reflexivity].
      apply List.find_some in Hfind as [Hentry Hname].
      apply String.eqb_eq in Hname. cbn [fst] in Hname. subst name.
      destruct Hentry as [Hentry|[Hentry|[Hentry|[]]]];
        injection Hentry as <- _; discriminate Hin. }
    by rewrite Hin.
  - intros member redirected Hin Hkey Hvalue Htruthy.
    apply moduleIdAliases_exact. rewrite (Hmember member Hin).
    unfold inheritedAlias. by rewrite Hkey, Hvalue, Htruthy.
  - intros member Hin Hkey Hvalue. rewrite (Hmember member Hin).
    unfold inheritedAlias. by rewrite Hkey, Hvalue.
Qed.

(** X9. The alias of the vector icons, whose pattern is open at its end: an
    import of a subpath on one line resolves as the same subpath of
    [@expo/vector-icons]; and an import that goes on after the package name
    with anything but a slash resolves as [@expo/vector-icons] itself, the
    rest of the specifier dropped. *)
Theorem vector_icons_alias
    (context : ResolutionContext) (platform : option string) (w : World) :
  fst (getUniversalAliases config w)
  = Return [(matchVectorIcons, "@expo/vector-icons$1")] →
  (∀ sub,
     oneLine sub = true →
     moduleIdAliases config options context ("react-native-vector-icons/" +:+ sub) platform w
     = (strictly (getStrictResolver options context platform ("@expo/vector-icons/" +:+ sub)),
        snd (getUniversalAliases config w)))
  ∧ (∀ rest,
       Js.startsWith rest "/" = false →
       moduleIdAliases config options context ("react-native-vector-icons" +:+ rest) platform w
       = (strictly (getStrictResolver options context platform "@expo/vector-icons"),
          snd (getUniversalAliases config w))).
Proof.
  intros Hlist.
  assert (Hrun : ∀ rest m,
    matchVectorIcons ("react-native-vector-icons" +:+ rest) = Some m →
    moduleIdAliases config options context ("react-native-vector-icons" +:+ rest) platform w
    = (strictly (getStrictResolver options context platform
                   (Js.expandBackrefs m "@expo/vector-icons$1")),
       snd (getUniversalAliases config w))).
  { intros rest m Hm.
    rewrite (moduleIdAliases_universal config options _ _ _ _
               (exactAlias_not_vector_icons platform rest)).
    unfold bind at 1.
    destruct (getUniversalAliases config w) as [[l|e] w'] eqn:Hget; simpl in Hlist;
      [|discriminate].
    injection Hlist as ->. cbn [snd].
    by apply (firstUniversalAlias_first_match options [] []). }
  split.
  - intros sub Hline%String.eqb_eq.
    change ("react-native-vector-icons/" +:+ sub)
      with ("react-native-vector-icons" +:+ "/" +:+ sub).
    rewrite (Hrun ("/" +:+ sub)
               [Some ("react-native-vector-icons/" +:+ sub); Some ("/" +:+ sub)]).
    + reflexivity.
    + unfold matchVectorIcons.
      rewrite (prefix_append "react-native-vector-icons" ("/" +:+ sub)
               : Js.startsWith _ _ = true).
      change (Js.drop _ _) with (String "/" sub).
      change (Ascii.eqb "/" "/") with true. cbv beta iota.
      by rewrite Hline.
  - intros rest Hrest.
    rewrite (Hrun rest [Some "react-native-vector-icons"; None]); [reflexivity|].
    unfold matchVectorIcons.
    rewrite (prefix_append "react-native-vector-icons" rest : Js.startsWith _ _ = true).
    change (Js.drop _ _) with rest.
    destruct rest as [|c rest]; [done|].
    destruct (Ascii.eqb_spec c "/") as [->|]; [|done].
    unfold Js.startsWith in Hrest. simpl in Hrest. by rewrite prefix_empty in Hrest.
Qed.
End MoreAliases.

(** The alias of the vector icons on the demo project. *)
Lemma vector_icons_alias_witness :
  fst (moduleIdAliases (H := Demo.host) Demo.config Demo.options
         (Demo.context None true false) "react-native-vector-icons-extra" (Some "ios")
         Demo.world)
  = strictly (getStrictResolver (H := Demo.host) Demo.options (Demo.context None true false)
                (Some "ios") "@expo/vector-icons").
Proof.
  destruct (vector_icons_alias (H := Demo.host) Demo.config Demo.options
              (Demo.context None true false) (Some "ios") Demo.world eq_refl)
    as [_ Hdropped].
  exact (f_equal fst (Hdropped "-extra" eq_refl)).
Defined.

(** The alias stage on the demo project, off [web]. *)
Lemma moduleIdAliases_off_web_witness :
  moduleIdAliases (H := Demo.host) Demo.config Demo.options (Demo.context None true false)
    "react-native" (Some "ios") Demo.world
  = (Return None, snd (getUniversalAliases (H := Demo.host) Demo.config Demo.world)).
Proof.
  refine (proj2 (moduleIdAliases_off_web (H := Demo.host) Demo.config Demo.options
                   (Demo.context None true false) "react-native" (Some "ios") Demo.world
                   [(matchVectorIcons, "@expo/vector-icons$1")] _ eq_refl eq_refl _)).
  - discriminate.
  - repeat constructor.
Defined.

(** The exact lookup through the prototype chain on the demo project: on
    [web] the specifier [constructor] reads a function, which the resolver
    refuses; on the platform [constructor] the specifier [name] reads the
    name of [Object], and the stage resolves [Object], which is not
    installed. *)
Lemma moduleIdAliases_through_prototype_witness :
  moduleIdAliases (H := Demo.host) Demo.config Demo.options (Demo.context None true false)
    "constructor" (Some "web") Demo.world
  = (Throw (Demo.NotAString "web" "constructor"), Demo.world)
  ∧ moduleIdAliases (H := Demo.host) Demo.config Demo.options (Demo.context None true false)
      "name" (Some "constructor") Demo.world
    = (Throw (Demo.NameNotFound "Object"), Demo.world).
Proof.
  destruct (moduleIdAliases_through_prototype (H := Demo.host) Demo.config Demo.options
              (Demo.context None true false) "constructor" Demo.world)
    as (Hweb & _ & _).
  destruct (moduleIdAliases_through_prototype (H := Demo.host) Demo.config Demo.options
              (Demo.context None true false) "name" Demo.world)
    as (_ & Hmember & _).
  split.
  - exact (Hweb eq_refl).
  - exact (Hmember "constructor" "Object" eq_refl eq_refl eq_refl eq_refl).
Defined.

(** ** The chain as a whole *)

Section Chain.
Context `{H : Host}.
Variable config : Config.
Variable options : ExtendedResolverOptions.

Local Ltac run Hrun :=
  unfold bind, call, ret, modify, gets in Hrun;
  repeat case_match; simplify_eq; cbn [fst snd].

Lemma firstUniversalAlias_world
    (universal : list UniversalAlias) (context : ResolutionContext) (moduleName : string)
    (platform : option string) (w : World) :
  snd (firstUniversalAlias options universal context moduleName platform w) = w.
Proof.
  induction universal as [|[matcher alias] rest IH]; [done|].
  cbn [firstUniversalAlias]. destruct (matcher moduleName); [|done].
  unfold bind, call, ret. by destruct (getStrictResolver _ _ _ _).
Qed.

(** X10. What each resolver of the chain may write. The first two write
    nothing. The two externals stages write virtual modules only. The alias
    stage writes the list of universal aliases only. The strict-version
    stage writes the log and its flag only. The post-resolution stage writes
    virtual modules and the cached path of the asset registry only. None
    touches the path mappings. *)
Theorem resolvers_footprint
    (context : ResolutionContext) (moduleName : string) (platform : option string)
    (w : World) :
  snd (mockProductionReact context moduleName platform w) = w
  ∧ snd (tsconfigPaths options context moduleName platform w) = w
  ∧ (∀ stage, stage = nodeExternals options ∨ stage = customExternals →
       warnings (snd (stage context moduleName platform w)) = warnings w
       ∧ warnedMultipleReactNativeVersions (snd (stage context moduleName platform w))
         = warnedMultipleReactNativeVersions w
       ∧ _assetRegistryPath (snd (stage context moduleName platform w)) = _assetRegistryPath w
       ∧ _universalAliases (snd (stage context moduleName platform w)) = _universalAliases w
       ∧ tsConfigResolve (snd (stage context moduleName platform w)) = tsConfigResolve w)
  ∧ (virtualModules (snd (moduleIdAliases config options context moduleName platform w))
     = virtualModules w
     ∧ warnings (snd (moduleIdAliases config options context moduleName platform w))
       = warnings w
     ∧ warnedMultipleReactNativeVersions
         (snd (moduleIdAliases config options context moduleName platform w))
       = warnedMultipleReactNativeVersions w
     ∧ _assetRegistryPath (snd (moduleIdAliases config options context moduleName platform w))
       = _assetRegistryPath w
     ∧ tsConfigResolve (snd (moduleIdAliases config options context moduleName platform w))
       = tsConfigResolve w)
  ∧ (∀ enabled,
       virtualModules
         (snd (createReactNativeStrictVersionResolver config options enabled
                 context moduleName platform w))
       = virtualModules w
       ∧ _assetRegistryPath
           (snd (createReactNativeStrictVersionResolver config options enabled
                   context moduleName platform w))
         = _assetRegistryPath w
       ∧ _universalAliases
           (snd (createReactNativeStrictVersionResolver config options enabled
                   context moduleName platform w))
         = _universalAliases w
       ∧ tsConfigResolve
           (snd (createReactNativeStrictVersionResolver config options enabled
                   context moduleName platform w))
         = tsConfigResolve w)
  ∧ (warnings (snd (postResolutionRewrites config options context moduleName platform w))
     = warnings w
     ∧ warnedMultipleReactNativeVersions
         (snd (postResolutionRewrites config options context moduleName platform w))
       = warnedMultipleReactNativeVersions w
     ∧ _universalAliases (snd (postResolutionRewrites config options context moduleName platform w))
       = _universalAliases w
     ∧ tsConfigResolve (snd (postResolutionRewrites config options context moduleName platform w))
       = tsConfigResolve w).
Proof.
  split; [|split; [|split; [|split; [|split]]]].
  - destruct (mockProductionReact context moduleName platform w) as [out w'] eqn:Hrun.
    unfold mockProductionReact in Hrun. by run Hrun.
  - destruct (tsconfigPaths options context moduleName platform w) as [out w'] eqn:Hrun.
    unfold tsconfigPaths in Hrun. by run Hrun.
  - intros stage [->| ->].
    + destruct (nodeExternals options context moduleName platform w) as [out w'] eqn:Hrun.
      unfold nodeExternals in Hrun. by run Hrun.
    + destruct (customExternals context moduleName platform w) as [out w'] eqn:Hrun.
      unfold customExternals, firstExternal, externals in Hrun.
      cbn [matches replaceWith] in Hrun. by run Hrun.
  - destruct (moduleIdAliases_cases config options context moduleName platform)
      as [[redirected Hrun]|[Hrun|[error Hrun]]]; rewrite !Hrun.
    + unfold strictly. by destruct (getStrictResolver _ _ _ _).
    + unfold bind at 1 2 3 4 5. unfold getUniversalAliases.
      destruct (_universalAliases w) as [l|]; rewrite !firstUniversalAlias_world; done.
    + done.
  - intros enabled.
    destruct (createReactNativeStrictVersionResolver config options enabled
                context moduleName platform w) as [out w'] eqn:Hrun.
    unfold createReactNativeStrictVersionResolver in Hrun. by run Hrun.
  - destruct (postResolutionRewrites config options context moduleName platform w)
      as [out w'] eqn:Hrun.
    unfold postResolutionRewrites, getAssetRegistryPath in Hrun. by run Hrun.
Qed.

(** What a call to a resolver of the chain does to the log and to the flag
    of the warning: nothing, or the one warning, and that only while the
    flag is down and the redirector is on. *)
Lemma resolvers_log_step (stage : Stage Error)
    (context : ResolutionContext) (moduleName : string) (platform : option string)
    (w : World) :
  In stage (resolvers config options) →
  (warnings (snd (stage context moduleName platform w)) = warnings w
   ∧ warnedMultipleReactNativeVersions (snd (stage context moduleName platform w))
     = warnedMultipleReactNativeVersions w)
  ∨ (warnedMultipleReactNativeVersions w = false
     ∧ enabledOption (isReactNativeStrictVersionEnabled options) = true
     ∧ warnedMultipleReactNativeVersions (snd (stage context moduleName platform w)) = true
     ∧ warnings (snd (stage context moduleName platform w))
       = warnings w ++ [multipleVersionsWarning config]).
Proof.
  unfold resolvers. cbn [In].
  intros [<-|[<-|[<-|[<-|[<-|[<-|[<-|[]]]]]]]].
  - left. destruct (mockProductionReact context moduleName platform w) as [out w'] eqn:Hrun.
    unfold mockProductionReact in Hrun. by run Hrun.
  - left. destruct (tsconfigPaths options context moduleName platform w) as [out w'] eqn:Hrun.
    unfold tsconfigPaths in Hrun. by run Hrun.
  - left. destruct (nodeExternals options context moduleName platform w) as [out w'] eqn:Hrun.
    unfold nodeExternals in Hrun. by run Hrun.
  - left. destruct (customExternals context moduleName platform w) as [out w'] eqn:Hrun.
    unfold customExternals, firstExternal, externals in Hrun.
    cbn [matches replaceWith] in Hrun. by run Hrun.
  - left.
    destruct (moduleIdAliases_cases config options context moduleName platform)
      as [[redirected Hrun]|[Hrun|[error Hrun]]]; rewrite !Hrun.
    + unfold strictly. by destruct (getStrictResolver _ _ _ _).
    + unfold bind at 1 2. unfold getUniversalAliases.
      destruct (_universalAliases w) as [l|]; rewrite !firstUniversalAlias_world; done.
    + done.
  - destruct (createReactNativeStrictVersionResolver config options
                (isReactNativeStrictVersionEnabled options)
                context moduleName platform w) as [out w'] eqn:Hrun.
    unfold createReactNativeStrictVersionResolver in Hrun.
    fold (enabledOption (isReactNativeStrictVersionEnabled options)) in Hrun.
    run Hrun; try (by left).
    right. repeat split; try done.
    + by apply negb_true_iff.
    + match goal with
      | Hon : negb (enabledOption _) || _ = false |- _ =>
          apply orb_false_iff in Hon as [Hon _]; by apply negb_false_iff in Hon
      end.
  - left. destruct (postResolutionRewrites config options context moduleName platform w)
      as [out w'] eqn:Hrun.
    unfold postResolutionRewrites, getAssetRegistryPath in Hrun. by run Hrun.
Qed.

(** X11. However the requests are spread over the resolvers of one chain, and
    however many of them are redirected, the warning about several versions
    of React Native is written at most once; and it is never written while
    the strict-version option is off. *)
Theorem chain_warns_at_most_once (calls : list (Stage Error * Request)) (w : World) :
  Forall (fun call => In (fst call) (resolvers config options)) calls →
  warnedMultipleReactNativeVersions w = false →
  (warnings (serveAll calls w) = warnings w
   ∨ warnings (serveAll calls w) = warnings w ++ [multipleVersionsWarning config])
  ∧ (enabledOption (isReactNativeStrictVersionEnabled options) = false →
     warnings (serveAll calls w) = warnings w).
Proof.
  intros Hcalls.
  assert (Hinv : ∀ w,
    (warnedMultipleReactNativeVersions w = true →
     warnings (serveAll calls w) = warnings w)
    ∧ (warnedMultipleReactNativeVersions w = false →
       warnings (serveAll calls w) = warnings w
       ∨ (enabledOption (isReactNativeStrictVersionEnabled options) = true
          ∧ warnings (serveAll calls w) = warnings w ++ [multipleVersionsWarning config]))).
  { clear w. induction Hcalls as [|[stage r] calls Hstage _ IH]; intros w.
    - split; intros _; [done|by left].
    - unfold serveAll. cbn [fold_left fst snd].
      fold (serveAll calls (serveOne stage w r)).
      destruct (IH (serveOne stage w r)) as [IHup IHdown].
      destruct (resolvers_log_step stage (requestContext r) (requestModuleName r)
                  (requestPlatform r) w Hstage)
        as [[Hlog Hflag]|(Hdown & Hon & Hup & Hlog)];
        fold (serveOne stage w r) in *.
      + split; intros Hw; rewrite Hw in Hflag.
        * by rewrite IHup, Hlog.
        * destruct (IHdown Hflag) as [Hsame|[Hon Hone]]; [left|right].
          -- by rewrite Hsame, Hlog.
          -- split; [done|]. by rewrite Hone, Hlog.
      + split; intros Hw; [congruence|].
        right. split; [done|]. by rewrite (IHup Hup), Hlog. }
  intros Hw. destruct (proj2 (Hinv w) Hw) as [Hsame|[Hon Hone]].
  - split; [by left|done].
  - split; [by right|]. intros Hoff. congruence.
Qed.

Lemma hasVirtualModule_false (id : string) (w : World) :
  hasVirtualModule id w = false → virtualModules w !! id = None.
Proof.
  unfold hasVirtualModule. intros Hhas%bool_decide_eq_false.
  destruct (virtualModules w !! id) eqn:Hid; [|done]. destruct Hhas. eauto.
Qed.

(** X12. The registry only grows: no resolver of the chain, and no call of
    [getPolyfills], takes a virtual module away; and apart from the two
    externals stages, which write the source of their module anew, no
    resolver changes the source of a module that is registered, the
    post-resolution stage registering a shim only when its identifier is
    free. *)
Theorem registry_only_grows
    (context : ResolutionContext) (moduleName : string) (platform : option string)
    (w : World) :
  (∀ stage id,
     In stage (resolvers config options) →
     is_Some (virtualModules w !! id) →
     is_Some (virtualModules (snd (stage context moduleName platform w)) !! id))
  ∧ (∀ id,
       is_Some (virtualModules w !! id) →
       is_Some (virtualModules (snd (getPolyfills config platform w)) !! id))
  ∧ (∀ stage id source,
       In stage [mockProductionReact;
                 tsconfigPaths options;
                 moduleIdAliases config options;
                 createReactNativeStrictVersionResolver config options
                   (isReactNativeStrictVersionEnabled options);
                 postResolutionRewrites config options] →
       virtualModules w !! id = Some source →
       virtualModules (snd (stage context moduleName platform w)) !! id = Some source).
Proof.
  assert (Hkept : ∀ stage id source,
    In stage [mockProductionReact;
              tsconfigPaths options;
              moduleIdAliases config options;
              createReactNativeStrictVersionResolver config options
                (isReactNativeStrictVersionEnabled options);
              postResolutionRewrites config options] →
    virtualModules w !! id = Some source →
    virtualModules (snd (stage context moduleName platform w)) !! id = Some source).
  { intros stage id source. cbn [In]. intros [<-|[<-|[<-|[<-|[<-|[]]]]]] Hid.
    - destruct (mockProductionReact context moduleName platform w) as [out w'] eqn:Hrun.
      unfold mockProductionReact in Hrun. by run Hrun.
    - destruct (tsconfigPaths options context moduleName platform w) as [out w'] eqn:Hrun.
      unfold tsconfigPaths in Hrun. by run Hrun.
    - destruct (moduleIdAliases_cases config options context moduleName platform)
        as [[redirected Hrun]|[Hrun|[error Hrun]]]; rewrite !Hrun.
      + unfold strictly. by destruct (getStrictResolver _ _ _ _).
      + unfold bind at 1. unfold getUniversalAliases.
        destruct (_universalAliases w) as [l|]; rewrite !firstUniversalAlias_world; done.
      + done.
    - destruct (createReactNativeStrictVersionResolver config options
                  (isReactNativeStrictVersionEnabled options)
                  context moduleName platform w) as [out w'] eqn:Hrun.
      unfold createReactNativeStrictVersionResolver in Hrun. by run Hrun.
    - destruct (postResolutionRewrites config options context moduleName platform w)
        as [out w'] eqn:Hrun.
      unfold postResolutionRewrites, getAssetRegistryPath in Hrun. run Hrun; try done.
      match goal with
      | Hhas : negb (hasVirtualModule ?sid _) = true |- _ =>
          apply negb_true_iff, hasVirtualModule_false in Hhas;
          cbn [virtualModules setVirtualModule];
          rewrite lookup_insert_ne; [done|congruence]
      end. }
  split; [|split; [|exact Hkept]].
  - intros stage id. unfold resolvers. cbn [In].
    intros [<-|[<-|[<-|[<-|[<-|[<-|[<-|[]]]]]]]] [source Hid];
      try (eexists; apply Hkept; [cbn [In]; tauto|exact Hid]).
    + destruct (nodeExternals options context moduleName platform w) as [out w'] eqn:Hrun.
      unfold nodeExternals in Hrun. run Hrun; try (by eexists).
      cbn [virtualModules setVirtualModule]. apply lookup_insert_is_Some'. eauto.
    + destruct (customExternals context moduleName platform w) as [out w'] eqn:Hrun.
      unfold customExternals, firstExternal, externals in Hrun.
      cbn [matches replaceWith] in Hrun. run Hrun; try (by eexists).
      cbn [virtualModules setVirtualModule]. apply lookup_insert_is_Some'. eauto.
  - intros id Hid. unfold getPolyfills, bind, modify, ret.
    destruct (bool_decide (platform = Some "web")); cbn [snd virtualModules setVirtualModule];
      do 2 (apply lookup_insert_is_Some'; right); exact Hid.
Qed.

Lemma setVirtualModule_twice (id source : string) (w : World) :
  setVirtualModule id source (setVirtualModule id source w) = setVirtualModule id source w.
Proof. unfold setVirtualModule. cbn. by rewrite insert_insert_eq. Qed.

Lemma hasVirtualModule_set (id source : string) (w : World) :
  hasVirtualModule id (setVirtualModule id source w) = true.
Proof.
  unfold hasVirtualModule. apply bool_decide_eq_true. cbn.
  rewrite lookup_insert_eq. eauto.
Qed.

Lemma firstUniversalAlias_answer
    (universal : list UniversalAlias) (context : ResolutionContext) (moduleName : string)
    (platform : option string) (w1 w2 : World) :
  fst (firstUniversalAlias options universal context moduleName platform w1)
  = fst (firstUniversalAlias options universal context moduleName platform w2).
Proof.
  induction universal as [|[matcher alias] rest IH]; [done|].
  cbn [firstUniversalAlias]. destruct (matcher moduleName); [|done].
  unfold bind, call, ret. by destruct (getStrictResolver _ _ _ _).
Qed.

(** X13. A request asked again of the same resolver gets the same answer and
    writes nothing more: the caches are filled, the virtual module is
    registered and the warning is out after the first time. *)
Theorem resolvers_settle (stage : Stage Error)
    (context : ResolutionContext) (moduleName : string) (platform : option string)
    (w : World) :
  In stage (resolvers config options) →
  stage context moduleName platform (snd (stage context moduleName platform w))
  = (fst (stage context moduleName platform w), snd (stage context moduleName platform w)).
Proof.
  unfold resolvers. cbn [In].
  intros [<-|[<-|[<-|[<-|[<-|[<-|[<-|[]]]]]]]].
  - destruct (mockProductionReact context moduleName platform w) as [out w'] eqn:Hrun.
    cbn [fst snd]. unfold mockProductionReact in *. by run Hrun.
  - destruct (tsconfigPaths options context moduleName platform w) as [out w'] eqn:Hrun.
    cbn [fst snd]. unfold tsconfigPaths, bind, gets, call, ret in *.
    repeat case_match; by simplify_eq.
  - destruct (nodeExternals options context moduleName platform w) as [out w'] eqn:Hrun.
    cbn [fst snd]. unfold nodeExternals, bind, gets, call, ret, modify in *.
    repeat case_match; simplify_eq; try done.
    by rewrite setVirtualModule_twice.
  - destruct (customExternals context moduleName platform w) as [out w'] eqn:Hrun.
    cbn [fst snd]. unfold customExternals, firstExternal, externals in *.
    cbn [matches replaceWith] in *. unfold bind, gets, call, ret, modify in *.
    repeat case_match; simplify_eq; try done.
    by rewrite setVirtualModule_twice.
  - destruct (moduleIdAliases_cases config options context moduleName platform)
      as [[redirected Halias]|[Halias|[error Halias]]]; rewrite !Halias;
      [reflexivity| |reflexivity].
    clear Halias.
    + unfold bind, getUniversalAliases.
      destruct (_universalAliases w) as [l|] eqn:Hcache.
      * rewrite !firstUniversalAlias_world, Hcache.
        destruct (firstUniversalAlias options l context moduleName platform w)
          as [out w'] eqn:Hrun.
        pose proof (firstUniversalAlias_world l context moduleName platform w) as Hworld.
        rewrite Hrun in Hworld. cbn [fst snd] in *. subst. reflexivity.
      * rewrite !firstUniversalAlias_world.
        cbn [_universalAliases set_universalAliases].
        destruct (firstUniversalAlias options _ context moduleName platform _)
          as [out w'] eqn:Hrun.
        match type of Hrun with
        | firstUniversalAlias _ ?l _ _ _ ?w0 = _ =>
            pose proof (firstUniversalAlias_world l context moduleName platform w0) as Hworld
        end.
        rewrite Hrun in Hworld. cbn [fst snd] in *. subst. reflexivity.
  - destruct (createReactNativeStrictVersionResolver config options
                (isReactNativeStrictVersionEnabled options)
                context moduleName platform w) as [out w'] eqn:Hrun.
    cbn [fst snd]. unfold createReactNativeStrictVersionResolver in *.
    unfold bind, gets, call, ret, modify in *.
    repeat case_match; simplify_eq; try done; congruence.
  - destruct (postResolutionRewrites config options context moduleName platform w)
      as [out w'] eqn:Hrun.
    cbn [fst snd]. unfold postResolutionRewrites, getAssetRegistryPath in *.
    unfold bind, gets, call, ret, modify in *.
    repeat case_match; simplify_eq; try done; try congruence.
    all: try (cbn [_assetRegistryPath set_assetRegistryPath] in *; by simplify_eq).
    all: by rewrite setVirtualModule_twice.
Qed.

Lemma firstUniversalAlias_ignores_resolveRequest
    (universal : list UniversalAlias) (upstream : option nat)
    (context : ResolutionContext) (moduleName : string) (platform : option string)
    (w : World) :
  firstUniversalAlias options universal (withResolveRequest upstream context)
    moduleName platform w
  = firstUniversalAlias options universal context moduleName platform w.
Proof.
  induction universal as [|[matcher alias] rest IH]; [done|].
  cbn [firstUniversalAlias]. by destruct (matcher moduleName).
Qed.

(** X14. No resolver of the chain looks at the upstream resolver of the context
    it is given: whatever [resolveRequest] holds, answer and writes are the
    same, the strict and the optional resolver being handed the context
    without it. *)
Theorem resolvers_ignore_resolveRequest (stage : Stage Error) (upstream : option nat)
    (context : ResolutionContext) (moduleName : string) (platform : option string)
    (w : World) :
  In stage (resolvers config options) →
  stage (withResolveRequest upstream context) moduleName platform w
  = stage context moduleName platform w.
Proof.
  unfold resolvers. cbn [In].
  intros [<-|[<-|[<-|[<-|[<-|[<-|[<-|[]]]]]]]]; try reflexivity.
  destruct (exactAlias platform moduleName) as [[redirected|]|error] eqn:Hexact.
  - by rewrite !(moduleIdAliases_exact config options _ _ _ _ _ Hexact).
  - rewrite !(moduleIdAliases_universal config options _ _ _ _ Hexact).
    unfold bind. destruct (getUniversalAliases config w) as [[l|e] w']; [|reflexivity].
    apply firstUniversalAlias_ignores_resolveRequest.
  - by rewrite !(moduleIdAliases_throws config options _ _ _ _ _ Hexact).
Qed.

Lemma includesPat_cons_lit (c : ascii → bool) (name s : string) :
  Js.includesPat (c :: Js.lit name) s = true → Js.includes s name = true.
Proof.
  assert (Hlit : ∀ name s, Js.matchesAt (Js.lit name) s = String.prefix name s).
  { clear. induction name as [|a name IH]; intros s; [by destruct s|].
    destruct s as [|b s]; [done|]. unfold Js.lit in *. cbn.
    rewrite IH. destruct (ascii_dec a b) as [->|Hab].
    - by rewrite Ascii.eqb_refl.
    - apply Ascii.eqb_neq in Hab. by rewrite Hab. }
  induction s as [|b s IH]; [done|].
  cbn [Js.includesPat Js.matchesAt]. fold (Js.lit name).
  intros [[_ Hhere]%andb_true_iff|Hlater]%orb_true_iff.
  - rewrite Hlit in Hhere. cbn [Js.includes].
    destruct s as [|b' s].
    + cbn [Js.includes]. rewrite Hhere. apply orb_true_r.
    + cbn [Js.includes]. rewrite Hhere. by rewrite orb_true_r.
  - cbn [Js.includes]. rewrite (IH Hlater). apply orb_true_r.
Qed.

Lemma includes_trans (s a b c : string) :
  Js.includes s (a +:+ b +:+ c) = true → Js.includes s b = true.
Proof.
  intros (pre & post & ->)%includes_spec. apply includes_spec.
  exists (pre +:+ a), (c +:+ post). by rewrite !append_assoc.
Qed.

Lemma endsWith_trans (s a b : string) :
  Js.endsWith s (a +:+ b) = true → Js.endsWith s b = true.
Proof.
  intros [pre ->]%endsWith_spec. apply endsWith_spec.
  exists (pre +:+ a). by rewrite append_assoc.
Qed.

(** The development-only stage answers [empty] or [null] and nothing else,
    and [null] on every specifier that neither contains [-prod] nor ends in
    [.js], as it does whenever [dev] is off. *)
Lemma mockProductionReact_null
    (context : ResolutionContext) (moduleName : string) (platform : option string)
    (w : World) :
  dev context = false
  ∨ (Js.includes moduleName "-prod" = false ∧ Js.endsWith moduleName ".js" = false) →
  mockProductionReact context moduleName platform w = (Return None, w).
Proof.
  unfold mockProductionReact. intros [->|[Hprod Hjs]]; [done|].
  destruct (negb (dev context)); [done|].
  assert (Js.includesPat reactFabricProd moduleName = false) as ->.
  { destruct (Js.includesPat reactFabricProd moduleName) eqn:Hfabric; [|done].
    apply includesPat_cons_lit in Hfabric.
    apply (includes_trans _ "ReactFabric" "-prod" "") in Hfabric. congruence. }
  assert (Js.includes moduleName "ReactNativeRenderer-prod" = false) as ->.
  { destruct (Js.includes moduleName "ReactNativeRenderer-prod") eqn:Hrenderer; [|done].
    apply (includes_trans _ "ReactNativeRenderer" "-prod" "") in Hrenderer. congruence. }
  assert (Js.endsWith moduleName ".production.js" = false) as ->.
  { destruct (Js.endsWith moduleName ".production.js") eqn:Hproduction; [|done].
    apply (endsWith_trans _ ".production" ".js") in Hproduction. congruence. }
  assert (Js.endsWith moduleName ".production.min.js" = false) as ->.
  { destruct (Js.endsWith moduleName ".production.min.js") eqn:Hmin; [|done].
    apply (endsWith_trans _ ".production.min" ".js") in Hmin. congruence. }
  by rewrite !andb_false_r.
Qed.

(** X15. A plain import falls through the chain. When no rule of a stage
    applies - the specifier is no production build of React, there are no
    path mappings, it names no built-in and no declared external, the exact
    lookup of the alias stage, which reads through the prototype chain,
    yields nothing and no universal alias matches, it is no import of React
    Native, it is not the asset registry of react-native-web and it resolves
    outside every [node_modules] - the first six resolvers answer [null] and
    leave the virtual modules and the log alone, and the last one answers
    what the strict resolver answers, result or throw, and writes nothing. *)
Theorem plain_import_falls_through
    (context : ResolutionContext) (moduleName : string) (platform : option string)
    (w : World) (universal : list UniversalAlias) :
  dev context = false
  ∨ (Js.includes moduleName "-prod" = false ∧ Js.endsWith moduleName ".js" = false) →
  tsConfigResolve w = None →
  isNodeExternal moduleName = None →
  matchesDeclaredExternal moduleName = false →
  exactAlias platform moduleName = Return None →
  fst (getUniversalAliases config w) = Return universal →
  Forall (fun entry : UniversalAlias => fst entry moduleName = None) universal →
  isReactNativeImport moduleName = false →
  isAssetRegistryRequest context moduleName platform = false →
  (∀ filePath fields,
     getStrictResolver options context platform moduleName
     = Return (SourceFile filePath fields) →
     Js.includes filePath "node_modules" = false) →
  Forall (fun stage : Stage Error =>
            fst (stage context moduleName platform w) = Return None
            ∧ virtualModules (snd (stage context moduleName platform w)) = virtualModules w
            ∧ warnings (snd (stage context moduleName platform w)) = warnings w)
         (take 6 (resolvers config options))
  ∧ List.skipn 6 (resolvers config options) = [postResolutionRewrites config options]
  ∧ postResolutionRewrites config options context moduleName platform w
    = (strictly (getStrictResolver options context platform moduleName), w).
Proof.
  intros Hmock Hts Hnode Hdeclared Hexact Hlist Hnone Himport Hasset Hpath.
  split; [|split; [reflexivity|]].
  - unfold resolvers. cbn [take]. repeat constructor.
    + by rewrite mockProductionReact_null.
    + by rewrite mockProductionReact_null.
    + by rewrite mockProductionReact_null.
    + unfold tsconfigPaths, bind, gets. by rewrite Hts.
    + unfold tsconfigPaths, bind, gets. by rewrite Hts.
    + unfold tsconfigPaths, bind, gets. by rewrite Hts.
    + unfold nodeExternals. by rewrite Hnode.
    + unfold nodeExternals. by rewrite Hnode.
    + unfold nodeExternals. by rewrite Hnode.
    + unfold customExternals, firstExternal, externals. cbn [matches replaceWith].
      rewrite Hdeclared. by repeat case_match.
    + unfold customExternals, firstExternal, externals. cbn [matches replaceWith].
      rewrite Hdeclared. by repeat case_match.
    + unfold customExternals, firstExternal, externals. cbn [matches replaceWith].
      rewrite Hdeclared. by repeat case_match.
    + rewrite (moduleIdAliases_universal config options _ _ _ _ Hexact). unfold bind.
      destruct (getUniversalAliases config w) as [[l|e] w'] eqn:Hget; simpl in Hlist;
        [|discriminate].
      injection Hlist as ->. by rewrite firstUniversalAlias_no_match.
    + rewrite (moduleIdAliases_universal config options _ _ _ _ Hexact). unfold bind.
      destruct (getUniversalAliases config w) as [[l|e] w'] eqn:Hget; simpl in Hlist;
        [|discriminate].
      injection Hlist as ->. rewrite firstUniversalAlias_no_match by done.
      unfold getUniversalAliases in Hget. by repeat case_match; simplify_eq.
    + rewrite (moduleIdAliases_universal config options _ _ _ _ Hexact). unfold bind.
      destruct (getUniversalAliases config w) as [[l|e] w'] eqn:Hget; simpl in Hlist;
        [|discriminate].
      injection Hlist as ->. rewrite firstUniversalAlias_no_match by done.
      unfold getUniversalAliases in Hget. by repeat case_match; simplify_eq.
    + unfold createReactNativeStrictVersionResolver.
      unfold isReactNativeImport in Himport. rewrite Himport. by rewrite orb_true_r.
    + unfold createReactNativeStrictVersionResolver.
      unfold isReactNativeImport in Himport. rewrite Himport. by rewrite orb_true_r.
    + unfold createReactNativeStrictVersionResolver.
      unfold isReactNativeImport in Himport. rewrite Himport. by rewrite orb_true_r.
  - unfold postResolutionRewrites. unfold isAssetRegistryRequest in Hasset.
    rewrite Hasset. unfold bind, call, ret.
    destruct (getStrictResolver options context platform moduleName)
      as [[filePath fields| |]|e] eqn:Hstrict; try reflexivity.
    rewrite (Hpath filePath fields eq_refl). rewrite andb_false_r.
    by destruct (bool_decide (platform = Some "web")).
Qed.
End Chain.

(** ** The polyfills over several platforms *)

Section MorePolyfills.
Context `{H : Host}.
Variable config : Config.

Lemma polyfillsAfter_cons (platform : option string) (platforms : list (option string))
    (w : World) :
  polyfillsAfter config (platform :: platforms) w
  = polyfillsAfter config platforms (snd (getPolyfills config platform w)).
Proof. reflexivity. Qed.

Lemma polyfillsAfter_others (platforms : list (option string)) (w : World) (id : string) :
  id ≠ virtualModuleId → id ≠ virtualEnvVarId →
  virtualModules (polyfillsAfter config platforms w) !! id = virtualModules w !! id.
Proof.
  intros Hmodule Henv. revert w.
  induction platforms as [|platform platforms IH]; intros w; [done|].
  rewrite polyfillsAfter_cons, IH. unfold getPolyfills, bind, modify, ret.
  destruct (bool_decide (platform = Some "web")); cbn [snd virtualModules setVirtualModule];
    by rewrite !lookup_insert_ne.
Qed.

(** X16. The two polyfill modules are shared by all platforms: after
    [getPolyfills] was called for a list of platforms, the external-require
    module holds the source of the platform of the last call, the
    environment-variables module holds [//], and every other virtual module
    is as it was. *)
Theorem polyfills_last_platform_wins
    (platforms : list (option string)) (last : option string) (w : World) :
  virtualModules (polyfillsAfter config (platforms ++ [last]) w) !! virtualModuleId
  = Some (externalRequireSource last)
  ∧ virtualModules (polyfillsAfter config (platforms ++ [last]) w) !! virtualEnvVarId
    = Some "//"
  ∧ (∀ id, id ≠ virtualModuleId → id ≠ virtualEnvVarId →
       virtualModules (polyfillsAfter config (platforms ++ [last]) w) !! id
       = virtualModules w !! id).
Proof.
  split; [|split].
  - unfold polyfillsAfter. rewrite fold_left_app. cbn [fold_left].
    unfold getPolyfills at 1. unfold bind, modify, ret.
    destruct (bool_decide (last = Some "web")); cbn [snd virtualModules setVirtualModule];
      apply lookup_insert_eq.
  - unfold polyfillsAfter. rewrite fold_left_app. cbn [fold_left].
    unfold getPolyfills at 1. unfold bind, modify, ret.
    destruct (bool_decide (last = Some "web")); cbn [snd virtualModules setVirtualModule];
      (rewrite lookup_insert_ne by discriminate); apply lookup_insert_eq.
  - intros id. apply polyfillsAfter_others.
Qed.
End MorePolyfills.

(** ** The platform list *)

Lemma existsb_eqb_elem (x : string) (l : list string) :
  existsb (String.eqb x) l = true ↔ x ∈ l.
Proof.
  rewrite existsb_exists, list_elem_of_In. split.
  - intros (y & Hin & Heq%String.eqb_eq). by subst.
  - intros Hin. exists x. split; [done|apply String.eqb_refl].
Qed.

Lemma setValues_spec (items seen : list string) :
  NoDup (setValues seen items)
  ∧ ∀ x, x ∈ setValues seen items ↔ x ∈ items ∧ x ∉ seen.
Proof.
  revert seen. induction items as [|item rest IH]; intros seen; cbn [setValues].
  - split; [constructor|]. intros x. rewrite elem_of_nil. tauto.
  - destruct (existsb (String.eqb item) seen) eqn:Hseen.
    + apply existsb_eqb_elem in Hseen. destruct (IH seen) as [Hnodup Hin].
      split; [done|]. intros x. rewrite Hin, elem_of_cons. split; [tauto|].
      intros [[->|Hx] Hnew]; tauto.
    + assert (item ∉ seen) as Hnew.
      { intros Hin%existsb_eqb_elem. congruence. }
      destruct (IH (item :: seen)) as [Hnodup Hin]. split.
      * constructor; [|done]. rewrite Hin, elem_of_cons. tauto.
      * intros x. rewrite !elem_of_cons, Hin, elem_of_cons.
        destruct (decide (x = item)) as [->|]; tauto.
Qed.

(** X17. The platform list holds no platform twice when the platforms of the
    configuration are an array, and also otherwise as long as no key of
    [platformBundlers] repeats; and it holds exactly the platforms that
    metro bundles and the project lists, together with the platforms of the
    configuration. *)
Theorem expoConfigPlatforms_spec (platformBundlers : list (string * string))
    (expPlatforms configPlatforms : option (list string)) :
  (is_Some configPlatforms ∨ NoDup (List.map fst platformBundlers) →
   NoDup (expoConfigPlatforms platformBundlers expPlatforms configPlatforms))
  ∧ ∀ platform,
      platform ∈ expoConfigPlatforms platformBundlers expPlatforms configPlatforms
      ↔ ((platform, "metro") ∈ platformBundlers
         ∧ ∃ listed, expPlatforms = Some listed ∧ platform ∈ listed)
        ∨ ∃ configured, configPlatforms = Some configured ∧ platform ∈ configured.
Proof.
  unfold expoConfigPlatforms.
  set (keep := fun entry : string * string =>
                 String.eqb (snd entry) "metro"
                 && match expPlatforms with
                    | Some platforms => existsb (String.eqb (fst entry)) platforms
                    | None => false
                    end).
  assert (Hfrom : ∀ platform,
    platform ∈ List.map fst (List.filter keep platformBundlers)
    ↔ (platform, "metro") ∈ platformBundlers
      ∧ ∃ listed, expPlatforms = Some listed ∧ platform ∈ listed).
  { intros platform. rewrite list_elem_of_In, in_map_iff. split.
    - intros ([name bundler] & <- & [Hin Hkeep]%filter_In).
      unfold keep in Hkeep. cbn [fst snd] in *.
      apply andb_true_iff in Hkeep as [->%String.eqb_eq Hlisted].
      split; [by apply list_elem_of_In|].
      destruct expPlatforms as [listed|]; [|done].
      exists listed. split; [done|]. by apply existsb_eqb_elem.
    - intros [Hin (listed & -> & Hlisted)]. exists (platform, "metro").
      split; [done|]. apply filter_In. split; [by apply list_elem_of_In|].
      unfold keep. cbn [fst snd]. by apply existsb_eqb_elem in Hlisted as ->. }
  split.
  - intros Hunique. destruct configPlatforms as [configured|].
    + apply setValues_spec.
    + destruct Hunique as [[? [=]]|Hkeys].
      clear Hfrom. induction platformBundlers as [|[name bundler] rest IH]; [constructor|].
      cbn [List.map fst] in Hkeys. apply NoDup_cons in Hkeys as [Hname Hrest].
      cbn [List.filter]. destruct (keep (name, bundler)); [|by apply IH].
      cbn [List.map fst]. constructor; [|by apply IH].
      intros Hin. apply Hname. apply list_elem_of_In in Hin.
      apply in_map_iff in Hin as (entry & <- & [Hentry _]%filter_In).
      apply list_elem_of_In, in_map. exact Hentry.
  - intros platform. destruct configPlatforms as [configured|].
    + destruct (setValues_spec (List.map fst (List.filter keep platformBundlers) ++ configured) [])
        as [_ Hin].
      rewrite Hin, elem_of_app, Hfrom. split.
      * intros [[Hexpo|Hconfigured] _]; [by left|right; eauto].
      * intros [Hexpo|(? & [= <-] & Hconfigured)];
          (split; [tauto|apply not_elem_of_nil]).
    + rewrite Hfrom. split; [by left|]. intros [Hexpo|(? & [=] & _)]. done.
Qed.

Lemma expoConfigPlatforms_spec_witness :
  NoDup (expoConfigPlatforms [("ios", "metro"); ("android", "metro"); ("web", "webpack")]
           (Some ["ios"; "android"; "web"]) (Some ["ios"; "web"; "web"]))
  ∧ expoConfigPlatforms [("ios", "metro"); ("android", "metro"); ("web", "webpack")]
      (Some ["ios"; "android"; "web"]) (Some ["ios"; "web"; "web"])
    = ["ios"; "android"; "web"].
Proof.
  split; [|reflexivity].
  apply (proj1 (expoConfigPlatforms_spec
                  [("ios", "metro"); ("android", "metro"); ("web", "webpack")]
                  (Some ["ios"; "android"; "web"]) (Some ["ios"; "web"; "web"]))).
  left. eauto.
Defined.

(** ** The context mutation *)

Section MoreContextMutation.
Context `{H : Host}.
Variable EXPO_METRO_NO_MAIN_FIELD_OVERRIDE : bool.

(** The extension order the requests so far have left in the closure. *)
Lemma extensionsAfter_spec (requests : list ContextRequest) (cache : option (list string)) :
  extensionsAfter EXPO_METRO_NO_MAIN_FIELD_OVERRIDE requests cache
  = match cache with
    | Some cached => Some cached
    | None =>
        match List.find isServerRequest requests with
        | Some first => Some (getNodejsExtensions (sourceExts (immutableContext first)))
        | None => None
        end
    end.
Proof.
  revert cache. induction requests as [|r requests IH]; intros cache.
  - by destruct cache.
  - change (extensionsAfter EXPO_METRO_NO_MAIN_FIELD_OVERRIDE (r :: requests) cache)
      with (extensionsAfter EXPO_METRO_NO_MAIN_FIELD_OVERRIDE requests
              (snd (mutateResolverContext EXPO_METRO_NO_MAIN_FIELD_OVERRIDE cache
                      (immutableContext r) (contextPlatform r)))).
    rewrite IH. cbn [List.find]. unfold mutateResolverContext, isServerRequest.
    destruct (isServerEnvironment _); cbn [snd]; by destruct cache.
Qed.

(** X18. In a server-like environment the extension order is computed once, from
    the source extensions of the first server request the chain sees, and
    handed to every later server request whatever its own source extensions
    and its platform are. *)
Theorem server_extensions_from_first_request
    (earlier : list ContextRequest) (r : ContextRequest) :
  isServerRequest r = true →
  sourceExts
    (fst (mutateResolverContext EXPO_METRO_NO_MAIN_FIELD_OVERRIDE
            (extensionsAfter EXPO_METRO_NO_MAIN_FIELD_OVERRIDE earlier None)
            (immutableContext r) (contextPlatform r)))
  = getNodejsExtensions
      (sourceExts
         (immutableContext
            match List.find isServerRequest earlier with
            | Some first => first
            | None => r
            end)).
Proof.
  intros Hserver. rewrite extensionsAfter_spec.
  unfold mutateResolverContext. unfold isServerRequest in Hserver. rewrite Hserver.
  cbn [fst sourceExts]. by destruct (List.find isServerRequest earlier).
Qed.
End MoreContextMutation.

(** ** The properties of the chain on the demo project *)

(** Three calls, two of them redirected by the strict-version stage, with
    the strict-version option on. *)
Lemma chain_warns_at_most_once_witness :
  warnings
    (serveAll
       [(createReactNativeStrictVersionResolver (H := Demo.host) Demo.config Demo.strictOptions
           (isReactNativeStrictVersionEnabled Demo.strictOptions),
         {| requestContext := Demo.context None true false;
            requestModuleName := "react-native";
            requestPlatform := Some "ios" |});
        (postResolutionRewrites (H := Demo.host) Demo.config Demo.strictOptions,
         {| requestContext := Demo.context None true false;
            requestModuleName := "./App";
            requestPlatform := Some "ios" |});
        (createReactNativeStrictVersionResolver (H := Demo.host) Demo.config Demo.strictOptions
           (isReactNativeStrictVersionEnabled Demo.strictOptions),
         {| requestContext := Demo.context None true false;
            requestModuleName := "react-native/Libraries/Core/InitializeCore";
            requestPlatform := Some "android" |})]
       Demo.world)
  = warnings Demo.world ++ [multipleVersionsWarning (H := Demo.host) Demo.config].
Proof.
  match goal with
  | |- warnings (serveAll ?calls _) = _ =>
      destruct (chain_warns_at_most_once (H := Demo.host) Demo.config Demo.strictOptions
                  calls Demo.world) as [[Hnone|Hone] _]
  end.
  - repeat constructor; unfold resolvers; cbn [In fst]; tauto.
  - reflexivity.
  - discriminate Hnone.
  - exact Hone.
Defined.

(** The shim of react-native-web, asked for twice. *)
Lemma resolvers_settle_witness :
  postResolutionRewrites (H := Demo.host) Demo.config Demo.options
    (Demo.context None true false) "react-native-web" (Some "web")
    (snd (postResolutionRewrites (H := Demo.host) Demo.config Demo.options
            (Demo.context None true false) "react-native-web" (Some "web") Demo.world))
  = (fst (postResolutionRewrites (H := Demo.host) Demo.config Demo.options
            (Demo.context None true false) "react-native-web" (Some "web") Demo.world),
     snd (postResolutionRewrites (H := Demo.host) Demo.config Demo.options
            (Demo.context None true false) "react-native-web" (Some "web") Demo.world)).
Proof.
  apply (resolvers_settle (H := Demo.host) Demo.config Demo.options
           (postResolutionRewrites (H := Demo.host) Demo.config Demo.options)).
  unfold resolvers. cbn [In]. tauto.
Defined.

(** The Node.js externals stage under another upstream resolver. *)
Lemma resolvers_ignore_resolveRequest_witness :
  nodeExternals (H := Demo.host) Demo.options
    (withResolveRequest (Some 7) (Demo.context None true false)) "path" (Some "web") Demo.world
  = nodeExternals (H := Demo.host) Demo.options
      (Demo.context None true false) "path" (Some "web") Demo.world.
Proof.
  apply (resolvers_ignore_resolveRequest (H := Demo.host) Demo.config Demo.options
           (nodeExternals (H := Demo.host) Demo.options)).
  unfold resolvers. cbn [In]. tauto.
Defined.

(** The entry file of the demo project falls through the chain. *)
Lemma plain_import_falls_through_witness :
  postResolutionRewrites (H := Demo.host) Demo.config Demo.options
    (Demo.context None true false) "./App" (Some "ios") Demo.world
  = (Return (Some (SourceFile "/app/App.js" [])), Demo.world).
Proof.
  refine (proj2 (proj2 (plain_import_falls_through (H := Demo.host) Demo.config Demo.options
                          (Demo.context None true false) "./App" (Some "ios") Demo.world
                          [(matchVectorIcons, "@expo/vector-icons$1")]
                          _ eq_refl eq_refl eq_refl eq_refl eq_refl _ eq_refl eq_refl _))).
  - right. split; reflexivity.
  - repeat constructor.
  - intros filePath fields [= <- <-]. reflexivity.
Defined.

(** Two server requests with different source extensions: the second gets
    the order computed for the first. *)
Lemma server_extensions_from_first_request_witness :
  sourceExts
    (fst (mutateResolverContext (H := Demo.host) false
            (extensionsAfter (H := Demo.host) false
               [{| immutableContext :=
                     {| resolutionContext := Demo.context (Some "node") true false;
                        preferNativePlatform := true;
                        sourceExts := ["ios.js"; "js"; "mjs"; "json"];
                        mainFields := ["react-native"; "browser"; "main"];
                        unstable_enablePackageExports := false;
                        unstable_conditionsByPlatform := [];
                        unstable_conditionNames := [] |};
                   contextPlatform := Some "ios" |}]
               None)
            {| resolutionContext := Demo.context (Some "node") true false;
               preferNativePlatform := true;
               sourceExts := ["web.js"; "mjs"; "js"];
               mainFields := ["browser"; "main"];
               unstable_enablePackageExports := false;
               unstable_conditionsByPlatform := [];
               unstable_conditionNames := [] |}
            (Some "web")))
  = ["ios.js"; "js"; "mjs"; "json"].
Proof.
  exact (server_extensions_from_first_request (H := Demo.host) false
           [{| immutableContext :=
                 {| resolutionContext := Demo.context (Some "node") true false;
                    preferNativePlatform := true;
                    sourceExts := ["ios.js"; "js"; "mjs"; "json"];
                    mainFields := ["react-native"; "browser"; "main"];
                    unstable_enablePackageExports := false;
                    unstable_conditionsByPlatform := [];
                    unstable_conditionNames := [] |};
               contextPlatform := Some "ios" |}]
           {| immutableContext :=
                {| resolutionContext := Demo.context (Some "node") true false;
                   preferNativePlatform := true;
                   sourceExts := ["web.js"; "mjs"; "js"];
                   mainFields := ["browser"; "main"];
                   unstable_enablePackageExports := false;
                   unstable_conditionsByPlatform := [];
                   unstable_conditionNames := [] |};
              contextPlatform := Some "web" |}
           eq_refl).
Defined.
